(** * Rubric evaluators

    A shallow embedding of the four Streamlit front ends

      - [ecosystem_evaluator.py]
      - [evaluator_digital_disruption.py]
      - [evaluator_transformation_plan.py]
      - [platform_evaluator.py]

    Each script acquires a credential, reads the submission widgets and, when
    the button is pressed, runs the same handler: input checks, one call to
    the remote model ([call_agent]), and the rendering of the returned text.

    Python values are an inductive type; what the handler shows (its calls
    into [st.*]) and the one call to [client.responses.create] are recorded,
    in order, in a trace that survives exceptions, as the page does. *)

From Stdlib Require Import String Ascii List ZArith NArith Lia Bool Permutation.
From Stdlib Require Import Floats.SpecFloat DecimalString.
Import ListNotations.
Local Open Scope list_scope.
Local Open Scope string_scope.
Set Warnings "-register-all".

(** ** Python strings

    A [str] is modelled by its UTF-8 encoding. *)

(** [str.lower()] on the ASCII range.  The scripts only ever compare a
    lowered string with the ASCII literals "yes", "pass" and "fail"; no
    character outside A-Z lowers to one of their letters, so those
    comparisons are exact. *)
Definition lower_ascii (c : ascii) : ascii :=
  let n := nat_of_ascii c in
  if (65 <=? n)%nat && (n <=? 90)%nat then ascii_of_nat (n + 32) else c.

Fixpoint lower (s : string) : string :=
  match s with
  | EmptyString => EmptyString
  | String c s' => String (lower_ascii c) (lower s')
  end.

(** UTF-8 encoding of a code point of the Basic Multilingual Plane. *)
Definition byte_of_N (n : N) : ascii := ascii_of_N n.

Definition utf8 (cp : N) : string :=
  if (cp <? 128)%N then String (byte_of_N cp) ""
  else if (cp <? 2048)%N then
    String (byte_of_N (192 + cp / 64)) (String (byte_of_N (128 + cp mod 64)) "")
  else
    String (byte_of_N (224 + cp / 4096))
      (String (byte_of_N (128 + (cp / 64) mod 64))
         (String (byte_of_N (128 + cp mod 64)) "")).

(** The code points [str.strip()] removes (those for which [str.isspace]
    holds). *)
Definition whitespace_code_points : list N :=
  [9; 10; 11; 12; 13; 28; 29; 30; 31; 32; 133; 160; 5760;
   8192; 8193; 8194; 8195; 8196; 8197; 8198; 8199; 8200; 8201; 8202;
   8232; 8233; 8239; 8287; 12288]%N.

Fixpoint string_rev (s : string) : string :=
  match s with
  | EmptyString => EmptyString
  | String c s' => string_rev s' ++ String c EmptyString
  end.

(** [drop_prefix p s] is the rest of [s] after [p], when [s] starts with [p]. *)
Fixpoint drop_prefix (p s : string) : option string :=
  match p, s with
  | EmptyString, _ => Some s
  | String a p', String b s' => if Ascii.eqb a b then drop_prefix p' s' else None
  | String _ _, EmptyString => None
  end.

Fixpoint drop_any (tokens : list string) (s : string) : option string :=
  match tokens with
  | [] => None
  | t :: ts =>
      match drop_prefix t s with
      | Some r => Some r
      | None => drop_any ts s
      end
  end.

Fixpoint lstrip_tokens (fuel : nat) (tokens : list string) (s : string) : string :=
  match fuel with
  | O => s
  | S fuel' =>
      match drop_any tokens s with
      | Some r => lstrip_tokens fuel' tokens r
      | None => s
      end
  end.

Definition lstrip (s : string) : string :=
  lstrip_tokens (String.length s) (map utf8 whitespace_code_points) s.

Definition rstrip (s : string) : string :=
  string_rev
    (lstrip_tokens (String.length s)
       (map (fun cp => string_rev (utf8 cp)) whitespace_code_points)
       (string_rev s)).

(** [s.strip()] *)
Definition strip (s : string) : string := lstrip (rstrip s).

(** Truth value of a [str]: [bool(s)]. *)
Definition nonempty (s : string) : bool :=
  match s with
  | EmptyString => false
  | String _ _ => true
  end.

(** ** Python values

    What [json.loads] can return, and what an attribute of the remote
    response can hold. A [dict] keeps its insertion order, which is the
    order [items()] yields. *)
Inductive pyval : Type :=
| VNone
| VBool (b : bool)
| VInt (n : Z)
| VFloat (f : spec_float)
| VStr (s : string)
| VList (l : list pyval)
| VDict (d : list (string * pyval)).

(** The exceptions the scripts can meet; all derive from [Exception]. *)
Inductive exn : Type :=
| AttributeError
| TypeError
| KeyError (key : string)
| JSONDecodeError
| StreamlitSecretNotFoundError
| OpenAIError (msg : string).

Definition isinstance_dict (v : pyval) : bool :=
  match v with
  | VDict _ => true
  | _ => false
  end.

Definition isinstance_str (v : pyval) : bool :=
  match v with
  | VStr _ => true
  | _ => false
  end.

(** [bool(v)] *)
Definition truthy (v : pyval) : bool :=
  match v with
  | VNone => false
  | VBool b => b
  | VInt n => negb (n =? 0)%Z
  | VFloat (S754_zero _) => false
  | VFloat _ => true
  | VStr s => nonempty s
  | VList [] => false
  | VList (_ :: _) => true
  | VDict [] => false
  | VDict (_ :: _) => true
  end.

(** [a or b] *)
Definition py_or (a b : pyval) : pyval := if truthy a then a else b.

(** Lookup in a [dict]. *)
Fixpoint dict_lookup (d : list (string * pyval)) (k : string) : option pyval :=
  match d with
  | [] => None
  | (k', v) :: d' => if String.eqb k' k then Some v else dict_lookup d' k
  end.

(** [v.get(k, default)]: only a [dict] has the method. *)
Definition py_get (v : pyval) (k : string) (default : pyval) : exn + pyval :=
  match v with
  | VDict d =>
      match dict_lookup d k with
      | Some x => inr x
      | None => inr default
      end
  | _ => inl AttributeError
  end.

(** [v == s] for a [str] literal [s]. *)
Definition py_eq_str (v : pyval) (s : string) : bool :=
  match v with
  | VStr s' => String.eqb s' s
  | _ => false
  end.

(** ** Effects

    A computation leaves a trace of the calls it made and ends with a value
    or with an exception. The trace written before an exception stays: what
    [st.markdown] has put on the page is not taken back. *)

Record message : Type := { role : string; input_text : string }.

(** The arguments of [client.responses.create], with the key the client
    was built with. *)
Record request : Type :=
  { req_api_key : string; req_model : string; req_input : list message }.

(** The calls that are recorded: those of the handler of the button and
    the request to the remote service. [st_section] is the card
    [section(title)] draws and [st_item] the card of one criterion, with
    the pieces the f-string puts into the markup. The page furniture drawn
    before the handler (title, sidebar, input widgets) is left out. *)
Inductive event : Type :=
| st_warning (body : string)
| st_spinner (body : string)
| st_subheader (body : string)
| st_section (title : string)
| st_item (badge key color explanation : string)
| st_success (body : string)
| st_error (body : string)
| st_info (body : string)
| st_markdown (body : string)
| st_write (v : pyval)
| st_exception (e : exn)
| responses_create (req : request).

Definition io (A : Type) : Type := list event * (exn + A).

Definition ret {A} (a : A) : io A := ([], inr a).

Definition emit (ev : event) : io unit := ([ev], inr tt).

Definition bind {A B} (m : io A) (k : A -> io B) : io B :=
  match m with
  | (t, inl e) => (t, inl e)
  | (t, inr a) => let (t', r) := k a in ((t ++ t')%list, r)
  end.

(** [try: m  except Exception as e: handler e] *)
Definition try_except {A} (m : io A) (handler : exn -> io A) : io A :=
  match m with
  | (t, inl e) => let (t', r) := handler e in ((t ++ t')%list, r)
  | (t, inr a) => (t, inr a)
  end.

(** A pure step that may raise. *)
Definition lift {A} (r : exn + A) : io A := ([], r).

Notation "x <- m ;; k" := (bind m (fun x => k))
  (at level 61, m at next level, right associativity).
Notation "m ;;; k" := (bind m (fun _ => k))
  (at level 61, right associativity).

Definition trace {A} (m : io A) : list event := fst m.
Definition outcome {A} (m : io A) : exn + A := snd m.

(** The requests sent to the remote service, in order. *)
Fixpoint transport_calls (t : list event) : list request :=
  match t with
  | [] => []
  | responses_create req :: t' => req :: transport_calls t'
  | _ :: t' => transport_calls t'
  end.

(** ** The remote response

    [call_agent] reads the response by attribute name, so an attribute is
    absent, [None], or holds a value. *)
Inductive attr (A : Type) : Type :=
| absent
| is_None
| has (a : A).
Arguments absent {A}.
Arguments is_None {A}.
Arguments has {A} a.

(** A part [c] of [out.content], read through [c.type] and [c.text];
    [None] stands for a missing attribute. *)
Record segment : Type :=
  { seg_type : option pyval; seg_text : option pyval }.

(** An item [out] of [response.output], read through [out.content]. *)
Record output_item : Type := { out_content : attr (list segment) }.

Record response : Type :=
  { output : attr (list output_item);
    output_text : option pyval;
    content : option pyval }.

(** [getattr(r, name, None)] *)
Definition getattr_or_None (a : option pyval) : pyval :=
  match a with
  | Some v => v
  | None => VNone
  end.

(** [hasattr(r, name)] *)
Definition hasattr {A} (a : option A) : bool :=
  match a with
  | Some _ => true
  | None => false
  end.

(** ** The four scripts *)
Inductive variant : Type :=
| ecosystem_evaluator
| evaluator_digital_disruption
| evaluator_transformation_plan
| platform_evaluator.

Section Evaluators.
Set Default Proof Using "Type".

(** [repr] of a [float] and of a [str] belong to the interpreter (shortest
    round-trip digits, quoting and escaping); they are parameters. *)
Variable float_repr : spec_float -> string.
Variable str_repr : string -> string.

Fixpoint py_repr (v : pyval) : string :=
  match v with
  | VNone => "None"
  | VBool b => if b then "True" else "False"
  | VInt n => NilZero.string_of_int (Z.to_int n)
  | VFloat f => float_repr f
  | VStr s => str_repr s
  | VList l => "[" ++ String.concat ", " (map py_repr l) ++ "]"
  | VDict d =>
      "{" ++ String.concat ", "
               (map (fun kv => str_repr (fst kv) ++ ": " ++ py_repr (snd kv)) d)
          ++ "}"
  end.

(** [str(v)], which is also how an f-string formats [v]. *)
Definition py_str (v : pyval) : string :=
  match v with
  | VStr s => s
  | _ => py_repr v
  end.

(** [json.loads]: [None] when it raises [JSONDecodeError]. *)
Variable json_loads : string -> option pyval.

(** *** Rendering of the returned text *)

(** The part fields of each rubric with the titles of their sections, in
    the order the script renders them. *)
Definition parts (v : variant) : list (string * string) :=
  match v with
  | ecosystem_evaluator =>
      [("part1_complementors_intermediaries", "Part 1 — Core Complementors and Intermediaries");
       ("part2_mve", "Part 2 — Minimal Viable Ecosystem (MVE)");
       ("part3_risks", "Part 3 — Core Ecosystem Risks")]
  | evaluator_digital_disruption =>
      [("part1", "Part 1 — Business Model");
       ("part2", "Part 2 — Disruptors");
       ("part3", "Part 3 — Strategies")]
  | evaluator_transformation_plan =>
      [("part1_awareness", "Part 1 — Awareness");
       ("part2_vision", "Part 2 — Digital Vision");
       ("part3_use_cases", "Part 3 — Use Cases");
       ("part4_employee_engagement", "Part 4 — Employee Engagement")]
  | platform_evaluator =>
      [("part1_interactions_actors", "Part 1 — Core Interactions and Actors");
       ("part2_chicken_egg", "Part 2 — Solving the Chicken or Egg Problem");
       ("part3_monetization", "Part 3 — Monetization Strategy")]
  end.

(** [section(title)] *)
Definition section (title : string) : io unit := emit (st_section title).

(** The body of the loop of [render_items]: one card per criterion. *)
Definition render_item (key : string) (val : pyval) : io unit :=
  value <- lift (py_get val "value" (VStr "no")) ;;
  let ok := String.eqb (lower (py_str value)) "yes" in
  let badge := if ok then "✅" else "❌" in
  let color := if ok then "#0f766e" else "#b91c1c" in
  explanation <- lift (py_get val "explanation" (VStr "")) ;;
  emit (st_item badge key color (py_str explanation)).

(** [for key, val in items.items(): ...] *)
Fixpoint render_items (items : list (string * pyval)) : io unit :=
  match items with
  | [] => ret tt
  | (key, val) :: rest => render_item key val ;;; render_items rest
  end.

(** [if isinstance(data.get(key), dict): section(title); render_items(data[key])] *)
Definition render_part (data : pyval) (part : string * string) : io unit :=
  let (key, title) := part in
  field <- lift (py_get data key VNone) ;;
  match field with
  | VDict items => section title ;;; render_items items
  | _ => ret tt
  end.

Fixpoint render_parts (data : pyval) (ps : list (string * string)) : io unit :=
  match ps with
  | [] => ret tt
  | p :: ps' => render_part data p ;;; render_parts data ps'
  end.

(** The final grade banner. *)
Definition final_grade_banner (data : pyval) : io unit :=
  g <- lift (py_get data "final_grade" (VStr "")) ;;
  let final_grade := lower (py_str g) in
  if String.eqb final_grade "pass" then emit (st_success "Final Grade: PASS")
  else if String.eqb final_grade "fail" then emit (st_error "Final Grade: FAIL")
  else
    raw <- lift (py_get data "final_grade" (VStr "")) ;;
    emit (st_info ("Final Grade: " ++ py_str raw)).

(** The overall comments. *)
Definition overall_comments (data : pyval) : io unit :=
  comments <- lift (py_get data "overall_comments" (VStr "")) ;;
  if truthy comments then
    emit (st_markdown "### Overall Comments") ;;; emit (st_write comments)
  else ret tt.

(** The body of the inner [try]. *)
Definition render_structured (v : variant) (result : string) : io unit :=
  data <- lift (match json_loads result with
                | Some d => inr d
                | None => inl JSONDecodeError
                end) ;;
  render_parts data (parts v) ;;;
  final_grade_banner data ;;;
  overall_comments data.

(** What the handler does with the text [call_agent] returned. The
    [pretty] string computed first is never used and leaves no trace. *)
Definition render_result (v : variant) (result : string) : io unit :=
  emit (st_subheader "Result") ;;;
  try_except (render_structured v result)
    (fun _ =>
       emit (st_warning "Could not parse the evaluation into sections. Showing compact text.") ;;;
       emit (st_write (VStr result))).

(** *** The call to the remote model *)

(** The rubric instructions of each script ([DEV_PROMPT]'s text), a
    constant of the script. *)
Variable DEV_PROMPT : variant -> string.

(** The remote service behind [client.responses.create]. *)
Variable remote : request -> exn + response.

(** [json.dumps(response.__dict__, default=str)] *)
Variable json_dumps : response -> string.

(** [os.environ] and [st.secrets] *)
Definition mapping : Type := string -> option string.

Definition setitem (m : mapping) (k v : string) : mapping :=
  fun k' => if String.eqb k' k then Some v else m k'.

(** [m.get(k)] as a truth value *)
Definition get_truthy (m : mapping) (k : string) : bool :=
  match m k with
  | Some s => nonempty s
  | None => false
  end.

(** [OpenAI(api_key=api_key) if api_key else OpenAI()]: without an explicit
    key the client takes the environment's, and refuses to be built when
    there is none. *)
Definition OpenAI (api_key : string) (environ : mapping) : exn + string :=
  if nonempty api_key then inr api_key
  else
    match environ "OPENAI_API_KEY" with
    | Some k => inr k
    | None => inl (OpenAIError "The api_key client option must be set")
    end.

(** [for c in out.content: if c.type == "output_text": text_out = c.text; break]
    [Some x] when the loop assigned [x]. *)
Fixpoint scan_content (cs : list segment) : exn + option pyval :=
  match cs with
  | [] => inr None
  | c :: cs' =>
      match seg_type c with
      | None => inl AttributeError
      | Some t =>
          if py_eq_str t "output_text" then
            match seg_text c with
            | None => inl AttributeError
            | Some x => inr (Some x)
            end
          else scan_content cs'
      end
  end.

(** The loop over [response.output], from the current [text_out]. *)
Fixpoint scan_output (outs : list output_item) (text_out : pyval) : exn + pyval :=
  match outs with
  | [] => inr text_out
  | out :: outs' =>
      let step :=
        match out_content out with
        | absent => inr text_out
        | is_None => inl TypeError
        | has cs =>
            match scan_content cs with
            | inl e => inl e
            | inr None => inr text_out
            | inr (Some x) => inr x
            end
        end in
      match step with
      | inl e => inl e
      | inr t => if truthy t then inr t else scan_output outs' t
      end
  end.

(** [getattr(response, "output", []) or []] *)
Definition output_or_empty (r : response) : list output_item :=
  match output r with
  | has outs => outs
  | _ => []
  end.

(** The body of the [try] of [call_agent]. *)
Definition scan_response (r : response) : exn + pyval :=
  match scan_output (output_or_empty r) VNone with
  | inl e => inl e
  | inr text_out =>
      if negb (truthy text_out) && hasattr (output_text r)
      then inr (getattr_or_None (output_text r))
      else inr text_out
  end.

(** The text [call_agent] returns for a response. *)
Definition extract_text (r : response) : string :=
  let text_out :=
    match scan_response r with
    | inl _ => VNone
    | inr t => t
    end in
  let text_out :=
    if negb (truthy text_out)
    then py_or (getattr_or_None (output_text r)) (getattr_or_None (content r))
    else text_out in
  match text_out with
  | VStr s => s
  | _ => json_dumps r
  end.

Definition build_request (v : variant) (key model user_text : string) : request :=
  {| req_api_key := key;
     req_model := model;
     req_input := [ {| role := "developer"; input_text := DEV_PROMPT v |};
                    {| role := "user"; input_text := user_text |} ] |}.

Definition call_agent (v : variant) (environ : mapping)
  (api_key model user_text : string) : io string :=
  key <- lift (OpenAI api_key environ) ;;
  let req := build_request v key model user_text in
  emit (responses_create req) ;;;
  r <- lift (remote req) ;;
  ret (extract_text r).

(** *** The handler of the button *)

(** [str(e)] in [f"Evaluation failed: {e}"]: the message the interpreter
    or the SDK gave the exception. *)
Variable exn_str : exn -> string.

(** The test of the [elif]: no credential to call with. *)
Definition no_credential (v : variant) (environ : mapping) (api_key : string) : bool :=
  match v with
  | evaluator_transformation_plan => negb (nonempty api_key)
  | _ => negb (nonempty api_key) && negb (get_truthy environ "OPENAI_API_KEY")
  end.

Definition credential_warning (v : variant) : string :=
  match v with
  | evaluator_transformation_plan =>
      "Provide an OpenAI API key in the sidebar, set OPENAI_API_KEY secret, or set OPENAI_API_KEY environment variable."
  | _ => "Provide an OpenAI API key in the sidebar or set OPENAI_API_KEY."
  end.

(** [if run: ...] with [run] true. *)
Definition run_handler (v : variant) (environ : mapping)
  (api_key model user_text : string) : io unit :=
  if negb (nonempty (strip user_text)) then
    emit (st_warning "Please paste your submission text before evaluating.")
  else if no_credential v environ api_key then
    emit (st_warning (credential_warning v))
  else
    emit (st_spinner "Evaluating...") ;;;
    try_except
      (result <- call_agent v environ api_key model user_text ;;
       render_result v result)
      (fun e =>
         emit (st_error ("Evaluation failed: " ++ exn_str e)) ;;;
         emit (st_exception e)).

(** *** The script, top to bottom *)

(** What one run of a script reads from its surroundings: the secrets
    file behind [st.secrets] ([None] when there is no such file),
    [os.environ], and the values its widgets return. *)
Record session : Type :=
  { secrets_file : option mapping;
    environ0 : mapping;
    key_input : string;
    model_input : string;
    submission : string;
    button : bool }.

(** The secrets that are defined; none are without a secrets file. *)
Definition secrets (s : session) : mapping :=
  fun k =>
    match secrets_file s with
    | Some m => m k
    | None => None
    end.

(** [st.secrets[k]]: without a secrets file the access itself raises
    ([StreamlitSecretNotFoundError]), and with one a missing key is a
    [KeyError]. *)
Definition secrets_getitem (s : session) (k : string) : exn + string :=
  match secrets_file s with
  | None => inl StreamlitSecretNotFoundError
  | Some m =>
      match m k with
      | Some x => inr x
      | None => inl (KeyError k)
      end
  end.

(** [st.secrets.get(k, default)]: the [get] of a mapping turns a
    [KeyError] into the default and lets any other exception through. *)
Definition secrets_get (s : session) (k default : string) : exn + string :=
  match secrets_getitem s k with
  | inr x => inr x
  | inl (KeyError _) => inr default
  | inl e => inl e
  end.

(** The credential lines at the top of each script: the key, and the
    environment they leave. *)
Definition acquire_credential (v : variant) (s : session) : exn + (string * mapping) :=
  match v with
  | ecosystem_evaluator | platform_evaluator => inr (key_input s, environ0 s)
  | evaluator_digital_disruption =>
      match secrets_getitem s "OPENAI_API_KEY" with
      | inr k => inr (k, setitem (environ0 s) "OPENAI_API_KEY" k)
      | inl e => inl e
      end
  | evaluator_transformation_plan =>
      let from_env :=
        match environ0 s "OPENAI_API_KEY" with
        | Some k => k
        | None => ""
        end in
      match secrets_get s "OPENAI_API_KEY" from_env with
      | inr k => inr (if nonempty k then k else key_input s, environ0 s)
      | inl e => inl e
      end
  end.

Definition script (v : variant) (s : session) : io unit :=
  cred <- lift (acquire_credential v s) ;;
  let (api_key, environ) := cred in
  if button s then run_handler v environ api_key (model_input s) (submission s)
  else ret tt.

(** ** Properties of the rendering *)

(** The value a [dict] gives for a key, or the default: [d.get(k, default)]. *)
Definition lookup_default (d : list (string * pyval)) (k : string) (default : pyval) : pyval :=
  match dict_lookup d k with
  | Some x => x
  | None => default
  end.

Lemma py_get_dict d k default :
  py_get (VDict d) k default = inr (lookup_default d k default).
Proof. unfold py_get, lookup_default. destruct (dict_lookup d k); reflexivity. Qed.

Lemma py_get_not_dict data k default :
  isinstance_dict data = false -> py_get data k default = inl AttributeError.
Proof. destruct data; simpl; try reflexivity. discriminate. Qed.

(** The card the loop of [render_items] is expected to draw for a criterion
    with the given fields. *)
Definition criterion_ok (fields : list (string * pyval)) : bool :=
  String.eqb (lower (py_str (lookup_default fields "value" (VStr "no")))) "yes".

Definition criterion_card (key : string) (fields : list (string * pyval)) : event :=
  st_item (if criterion_ok fields then "✅" else "❌") key
          (if criterion_ok fields then "#0f766e" else "#b91c1c")
          (py_str (lookup_default fields "explanation" (VStr ""))).

Lemma render_item_dict key fields :
  render_item key (VDict fields) = ([criterion_card key fields], inr tt).
Proof.
  unfold render_item, criterion_card, criterion_ok.
  rewrite !py_get_dict. reflexivity.
Qed.

Lemma render_item_not_dict key val :
  isinstance_dict val = false -> render_item key val = ([], inl AttributeError).
Proof.
  intros H. unfold render_item. rewrite (py_get_not_dict _ _ _ H). reflexivity.
Qed.

Lemma bind_inr {A B} (t : list event) (a : A) (k : A -> io B) :
  bind (t, inr a) k = ((t ++ trace (k a))%list, outcome (k a)).
Proof. unfold bind, trace, outcome. destruct (k a); reflexivity. Qed.

Lemma bind_inl {A B} (t : list event) (e : exn) (k : A -> io B) :
  bind (t, inl e) k = (t, inl e).
Proof. reflexivity. Qed.

(** The events the part sections are made of. *)
Definition part_event (ev : event) : Prop :=
  match ev with
  | st_section _ | st_item _ _ _ _ => True
  | _ => False
  end.

Definition fields_of (val : pyval) : list (string * pyval) :=
  match val with
  | VDict fields => fields
  | _ => []
  end.

(** The cards expected for the criteria of a part, in order. *)
Definition cards (items : list (string * pyval)) : list event :=
  map (fun kv => criterion_card (fst kv) (fields_of (snd kv))) items.

(** Every criterion of the part is itself a mapping. *)
Definition all_mappings (items : list (string * pyval)) : bool :=
  forallb (fun kv => isinstance_dict (snd kv)) items.

Lemma render_items_cons key val rest :
  render_items ((key, val) :: rest)
  = bind (render_item key val) (fun _ => render_items rest).
Proof. reflexivity. Qed.

Lemma render_items_ok items :
  all_mappings items = true -> render_items items = (cards items, inr tt).
Proof.
  induction items as [|[key val] rest IH]; intros H; [reflexivity|].
  simpl in H. apply andb_true_iff in H as [Hv Hr].
  destruct val; try discriminate Hv.
  rewrite render_items_cons, render_item_dict, bind_inr, (IH Hr). reflexivity.
Qed.

Lemma render_items_abort pre key val post :
  all_mappings pre = true -> isinstance_dict val = false ->
  render_items (pre ++ (key, val) :: post)%list = (cards pre, inl AttributeError).
Proof.
  induction pre as [|[k v] pre IH]; intros Hp Hv.
  - simpl app. rewrite render_items_cons, (render_item_not_dict _ _ Hv). reflexivity.
  - simpl in Hp. apply andb_true_iff in Hp as [Hk Hp].
    destruct v; try discriminate Hk.
    simpl app. rewrite render_items_cons, render_item_dict, bind_inr, (IH Hp Hv).
    reflexivity.
Qed.

(** A part with a criterion that is no mapping splits at the first one. *)
Lemma first_non_mapping items :
  all_mappings items = false ->
  exists pre key val post,
    items = (pre ++ (key, val) :: post)%list
    /\ all_mappings pre = true /\ isinstance_dict val = false.
Proof.
  induction items as [|[k v] rest IH]; intros H; [discriminate|].
  simpl in H. destruct (isinstance_dict v) eqn:E.
  - simpl in H. destruct (IH H) as (pre & key & val & post & -> & Hp & Hv).
    exists ((k, v) :: pre), key, val, post. repeat split; auto.
    simpl. rewrite E, Hp. reflexivity.
  - exists [], k, v, rest. repeat split; auto.
Qed.

Lemma cards_part_events items : Forall part_event (cards items).
Proof. unfold cards. apply Forall_map, Forall_forall. intros; exact I. Qed.

(** The section expected for a part field of a payload object. *)
Definition part_section (d : list (string * pyval)) (part : string * string) : list event :=
  match dict_lookup d (fst part) with
  | Some (VDict items) => st_section (snd part) :: cards items
  | _ => []
  end.

(** The part field, when it is a mapping, holds only mappings. *)
Definition part_well_formed (d : list (string * pyval)) (part : string * string) : bool :=
  match dict_lookup d (fst part) with
  | Some (VDict items) => all_mappings items
  | _ => true
  end.

Lemma render_part_dict d key title :
  render_part (VDict d) (key, title)
  = match dict_lookup d key with
    | Some (VDict items) =>
        (st_section title :: trace (render_items items), outcome (render_items items))
    | _ => ([], inr tt)
    end.
Proof.
  unfold render_part. rewrite py_get_dict. unfold lookup_default, lift.
  rewrite bind_inr.
  destruct (dict_lookup d key) as [[]|]; try reflexivity.
  unfold section, emit. rewrite bind_inr. reflexivity.
Qed.

Lemma render_part_ok d part :
  part_well_formed d part = true ->
  render_part (VDict d) part = (part_section d part, inr tt).
Proof.
  destruct part as [key title]. unfold part_well_formed, part_section. cbn [fst snd].
  intros H. rewrite render_part_dict.
  destruct (dict_lookup d key) as [[]|]; try reflexivity.
  rewrite (render_items_ok _ H). reflexivity.
Qed.

Lemma render_part_abort d part :
  part_well_formed d part = false ->
  exists t, render_part (VDict d) part = (t, inl AttributeError) /\ Forall part_event t.
Proof.
  destruct part as [key title]. unfold part_well_formed. cbn [fst snd].
  intros H. rewrite render_part_dict.
  destruct (dict_lookup d key) as [[]|]; try discriminate H.
  destruct (first_non_mapping _ H) as (pre & k & val & post & -> & Hp & Hv).
  rewrite (render_items_abort _ _ _ _ Hp Hv). simpl.
  eexists; split; [reflexivity|]. constructor; [exact I | apply cards_part_events].
Qed.

Lemma part_section_events d part : Forall part_event (part_section d part).
Proof.
  unfold part_section. destruct (dict_lookup d (fst part)) as [[]|]; try constructor.
  - exact I.
  - apply cards_part_events.
Qed.

Lemma render_parts_cons data p ps :
  render_parts data (p :: ps) = bind (render_part data p) (fun _ => render_parts data ps).
Proof. reflexivity. Qed.

Lemma render_parts_ok d ps :
  forallb (part_well_formed d) ps = true ->
  render_parts (VDict d) ps = (flat_map (part_section d) ps, inr tt).
Proof.
  induction ps as [|p ps IH]; intros H; [reflexivity|].
  simpl in H. apply andb_true_iff in H as [Hp Hps].
  rewrite render_parts_cons, (render_part_ok _ _ Hp), bind_inr, (IH Hps). reflexivity.
Qed.

Lemma render_parts_abort d ps :
  forallb (part_well_formed d) ps = false ->
  exists t, render_parts (VDict d) ps = (t, inl AttributeError) /\ Forall part_event t.
Proof.
  induction ps as [|p ps IH]; intros H; [discriminate|].
  simpl in H. rewrite render_parts_cons.
  destruct (part_well_formed d p) eqn:Hp.
  - simpl in H. destruct (IH H) as (t & Ht & Hev).
    rewrite (render_part_ok _ _ Hp), bind_inr, Ht. simpl.
    eexists; split; [reflexivity|]. apply Forall_app; split; auto.
    apply part_section_events.
  - destruct (render_part_abort _ _ Hp) as (t & Ht & Hev).
    rewrite Ht. exists t. split; auto.
Qed.

Lemma render_parts_not_dict data p ps :
  isinstance_dict data = false ->
  render_parts data (p :: ps) = ([], inl AttributeError).
Proof.
  intros H. rewrite render_parts_cons. destruct p as [key title].
  unfold render_part. rewrite (py_get_not_dict _ _ _ H). reflexivity.
Qed.

Lemma parts_nonempty v : exists p ps, parts v = p :: ps.
Proof. destruct v; simpl; eauto. Qed.

(** Whatever the payload, the parts leave only sections and cards, and end
    normally or with the [AttributeError] of a [get] on a non-mapping. *)
Lemma render_parts_shape v data :
  exists t,
    Forall part_event t
    /\ (render_parts data (parts v) = (t, inr tt)
        \/ render_parts data (parts v) = (t, inl AttributeError)).
Proof.
  destruct (isinstance_dict data) eqn:Hd.
  - destruct data; try discriminate Hd.
    destruct (forallb (part_well_formed d) (parts v)) eqn:Hw.
    + rewrite (render_parts_ok _ _ Hw). eexists; split; [|left; reflexivity].
      apply Forall_flat_map, Forall_forall. intros p _. apply part_section_events.
    + destruct (render_parts_abort _ _ Hw) as (t & Ht & Hev). exists t. auto.
  - destruct (parts_nonempty v) as (p & ps & ->).
    rewrite (render_parts_not_dict _ _ _ Hd). exists []. auto.
Qed.

(** The parts end normally only on a payload object with well-formed parts. *)
Lemma render_parts_reached v data :
  outcome (render_parts data (parts v)) = inr tt ->
  exists d, data = VDict d /\ forallb (part_well_formed d) (parts v) = true.
Proof.
  intros H. destruct (isinstance_dict data) eqn:Hd.
  - destruct data; try discriminate Hd. exists d. split; [reflexivity|].
    destruct (forallb (part_well_formed d) (parts v)) eqn:Hw; [reflexivity|].
    destruct (render_parts_abort _ _ Hw) as (t & Ht & _). rewrite Ht in H. discriminate.
  - destruct (parts_nonempty v) as (p & ps & Hp). rewrite Hp in H.
    rewrite (render_parts_not_dict _ _ _ Hd) in H. discriminate.
Qed.

(** The banner as a function of the final-grade field alone. *)
Definition grade_indicator (raw : pyval) : event :=
  if String.eqb (lower (py_str raw)) "pass" then st_success "Final Grade: PASS"
  else if String.eqb (lower (py_str raw)) "fail" then st_error "Final Grade: FAIL"
  else st_info ("Final Grade: " ++ py_str raw).

Lemma final_grade_banner_dict d :
  final_grade_banner (VDict d)
  = ([grade_indicator (lookup_default d "final_grade" (VStr ""))], inr tt).
Proof.
  unfold final_grade_banner, grade_indicator. rewrite py_get_dict.
  unfold lift. rewrite bind_inr.
  destruct (String.eqb (lower (py_str _)) "pass"); [reflexivity|].
  destruct (String.eqb (lower (py_str _)) "fail"); reflexivity.
Qed.

(** The comments section as a function of the field alone. *)
Definition comments_section (comments : pyval) : list event :=
  if truthy comments then [st_markdown "### Overall Comments"; st_write comments]
  else [].

Lemma overall_comments_dict d :
  overall_comments (VDict d)
  = (comments_section (lookup_default d "overall_comments" (VStr "")), inr tt).
Proof.
  unfold overall_comments, comments_section. rewrite py_get_dict.
  unfold lift. rewrite bind_inr.
  destruct (truthy _); reflexivity.
Qed.

Definition fallback (result : string) : list event :=
  [st_warning "Could not parse the evaluation into sections. Showing compact text.";
   st_write (VStr result)].

(** The three ways a rendering goes. *)
Lemma render_result_invalid v result :
  json_loads result = None ->
  render_result v result = (st_subheader "Result" :: fallback result, inr tt).
Proof. intros H. unfold render_result, render_structured. rewrite H. reflexivity. Qed.

Lemma render_result_aborted v result data t e :
  json_loads result = Some data ->
  render_parts data (parts v) = (t, inl e) ->
  render_result v result
  = (st_subheader "Result" :: (t ++ fallback result)%list, inr tt).
Proof.
  intros H Hp. unfold render_result, render_structured. rewrite H.
  unfold lift. rewrite bind_inr. simpl trace. simpl outcome. rewrite Hp.
  reflexivity.
Qed.

Lemma render_result_complete v result d t :
  json_loads result = Some (VDict d) ->
  render_parts (VDict d) (parts v) = (t, inr tt) ->
  render_result v result
  = (st_subheader "Result"
       :: (t ++ grade_indicator (lookup_default d "final_grade" (VStr ""))
              :: comments_section (lookup_default d "overall_comments" (VStr "")))%list,
     inr tt).
Proof.
  intros H Hp. unfold render_result, render_structured. rewrite H.
  unfold lift. rewrite bind_inr. simpl trace. simpl outcome. rewrite Hp.
  rewrite bind_inr, final_grade_banner_dict, bind_inr, overall_comments_dict.
  reflexivity.
Qed.

(** Lowering: which characters lower to a given lower-case letter. *)
Lemma lower_ascii_y c : lower_ascii c = "y"%char -> c = "y"%char \/ c = "Y"%char.
Proof.
  destruct c as [[] [] [] [] [] [] [] []]; vm_compute; intros H;
    solve [ discriminate H | auto ].
Qed.

Lemma lower_ascii_e c : lower_ascii c = "e"%char -> c = "e"%char \/ c = "E"%char.
Proof.
  destruct c as [[] [] [] [] [] [] [] []]; vm_compute; intros H;
    solve [ discriminate H | auto ].
Qed.

Lemma lower_ascii_s c : lower_ascii c = "s"%char -> c = "s"%char \/ c = "S"%char.
Proof.
  destruct c as [[] [] [] [] [] [] [] []]; vm_compute; intros H;
    solve [ discriminate H | auto ].
Qed.

Lemma lower_yes s :
  lower s = "yes" <->
  In s ["yes"; "yeS"; "yEs"; "yES"; "Yes"; "YeS"; "YEs"; "YES"].
Proof.
  split.
  - destruct s as [|a [|b [|c [|]]]]; simpl; try discriminate.
    intros H. injection H as Ha Hb Hc.
    destruct (lower_ascii_y _ Ha), (lower_ascii_e _ Hb), (lower_ascii_s _ Hc);
      subst; simpl; auto 10.
  - simpl. intros H.
    repeat (destruct H as [H | H]; [subst; reflexivity|]). contradiction.
Qed.

(** [str] of a value that is neither a string nor a float never reads
    "yes": it starts with a capital, a digit, a sign or a bracket. *)
Lemma py_str_not_yes x :
  match x with VStr _ | VFloat _ => False | _ => True end ->
  lower (py_str x) <> "yes".
Proof.
  destruct x; simpl; try contradiction; intros _.
  - discriminate.
  - destruct b; discriminate.
  - destruct n as [|p|p]; simpl.
    + discriminate.
    + unfold NilZero.string_of_uint. destruct (Pos.to_uint p); simpl; discriminate.
    + discriminate.
  - discriminate.
  - discriminate.
Qed.

(** C9. The badge of a criterion is the green check exactly when its
    "value", converted with [str] and lowered, is "yes"; otherwise, and when
    the key is missing (the default is "no"), it is the red cross. For a
    string value that means any capitalisation of "yes" ("Yes", "YES"), and
    nothing else; [None], a boolean, an integer, a list or a mapping never
    gets the green check. *)
Theorem render_item_badge :
  forall (key : string) (fields : list (string * pyval)),
    let value := lookup_default fields "value" (VStr "no") in
    exists badge color explanation,
      render_item key (VDict fields)
        = ([st_item badge key color explanation], inr tt)
      /\ (badge = "✅" \/ badge = "❌")
      /\ (badge = "✅" <-> lower (py_str value) = "yes")
      /\ (dict_lookup fields "value" = None -> badge = "❌")
      /\ (forall s, dict_lookup fields "value" = Some (VStr s) ->
           (badge = "✅" <->
            In s ["yes"; "yeS"; "yEs"; "yES"; "Yes"; "YeS"; "YEs"; "YES"]))
      /\ (forall x, dict_lookup fields "value" = Some x ->
           match x with VStr _ | VFloat _ => False | _ => True end ->
           badge = "❌")
      /\ explanation = py_str (lookup_default fields "explanation" (VStr "")).
Proof.
  intros key fields value.
  assert (Hok : criterion_ok fields = true <-> lower (py_str value) = "yes").
  { unfold criterion_ok. fold value. apply String.eqb_eq. }
  exists (if criterion_ok fields then "✅" else "❌"),
         (if criterion_ok fields then "#0f766e" else "#b91c1c"),
         (py_str (lookup_default fields "explanation" (VStr ""))).
  split; [apply render_item_dict|].
  assert (Hbadge : (if criterion_ok fields then "✅" else "❌") = "✅"
                   <-> lower (py_str value) = "yes").
  { rewrite <- Hok. destruct (criterion_ok fields); split; intros H;
      try reflexivity; discriminate H. }
  split; [destruct (criterion_ok fields); auto|].
  split; [exact Hbadge|].
  split.
  { intros Hn. destruct (criterion_ok fields) eqn:E; [|reflexivity].
    exfalso. pose proof (proj1 Hok eq_refl) as Hyes.
    unfold value, lookup_default in Hyes. rewrite Hn in Hyes. discriminate Hyes. }
  split.
  { intros s Hs. rewrite Hbadge, <- lower_yes.
    unfold value, lookup_default. rewrite Hs. reflexivity. }
  split; [|reflexivity].
  intros x Hx Hkind. destruct (criterion_ok fields) eqn:E; [|reflexivity].
  exfalso. pose proof (proj1 Hok eq_refl) as Hyes.
  unfold value, lookup_default in Hyes. rewrite Hx in Hyes.
  exact (py_str_not_yes x Hkind Hyes).
Qed.

(** The payload is an object whose part fields, where they are mappings,
    hold only mappings: the rendering then reaches the banner. *)
Definition renders_in_full (v : variant) (d : list (string * pyval)) : bool :=
  forallb (part_well_formed d) (parts v).

(** The trace of [render_result] on a payload that parsed: the parts, then
    either the banner and the comments, or the fallback. *)
Lemma render_result_cases v result data :
  json_loads result = Some data ->
  exists t,
    Forall part_event t
    /\ ((exists d, data = VDict d /\ renders_in_full v d = true
                  /\ t = flat_map (part_section d) (parts v)
                  /\ render_result v result
                     = (st_subheader "Result"
                          :: (t ++ grade_indicator (lookup_default d "final_grade" (VStr ""))
                                 :: comments_section
                                      (lookup_default d "overall_comments" (VStr "")))%list,
                        inr tt))
        \/ ((forall d, data = VDict d -> renders_in_full v d = false)
            /\ render_result v result
               = (st_subheader "Result" :: (t ++ fallback result)%list, inr tt))).
Proof.
  intros H. destruct (isinstance_dict data) eqn:Hd.
  - destruct data; try discriminate Hd.
    destruct (renders_in_full v d) eqn:Hw.
    + exists (flat_map (part_section d) (parts v)). split.
      * apply Forall_flat_map, Forall_forall. intros ? _. apply part_section_events.
      * left. exists d. repeat split; auto.
        apply render_result_complete; auto. apply render_parts_ok. exact Hw.
    + destruct (render_parts_abort _ _ Hw) as (t & Ht & Hev). exists t. split; auto.
      right. split.
      * intros d' E. injection E as <-. exact Hw.
      * eapply render_result_aborted; eauto.
  - exists []. split; [constructor|]. right. split.
    + intros d E. subst. discriminate.
    + destruct (parts_nonempty v) as (p & ps & Hp).
      eapply render_result_aborted; eauto. rewrite Hp.
      apply render_parts_not_dict. exact Hd.
Qed.

Definition is_grade_banner (ev : event) : bool :=
  match ev with
  | st_success _ | st_error _ | st_info _ => true
  | _ => false
  end.

Lemma part_event_not_banner t ev :
  Forall part_event t -> In ev t -> is_grade_banner ev = false.
Proof.
  intros Hall Hin. rewrite Forall_forall in Hall. specialize (Hall _ Hin).
  destruct ev; simpl in *; solve [reflexivity | contradiction].
Qed.

Lemma comments_not_banner c ev :
  In ev (comments_section c) -> is_grade_banner ev = false.
Proof.
  unfold comments_section. destruct (truthy c); simpl; [|contradiction].
  intros [<-|[<-|[]]]; reflexivity.
Qed.

Lemma fallback_not_banner result ev :
  In ev (fallback result) -> is_grade_banner ev = false.
Proof. simpl. intros [<-|[<-|[]]]; reflexivity. Qed.

(** What a banner in the trace of a rendering can only be. *)
Lemma banner_in_render_result v result data ev :
  json_loads result = Some data ->
  In ev (trace (render_result v result)) -> is_grade_banner ev = true ->
  exists d, data = VDict d
            /\ ev = grade_indicator (lookup_default d "final_grade" (VStr "")).
Proof.
  intros H Hin Hb.
  destruct (render_result_cases v result data H) as (t & Hev & [Hc | [_ Ha]]).
  - destruct Hc as (d & -> & _ & _ & Hr). rewrite Hr in Hin. simpl in Hin.
    destruct Hin as [<-|Hin]; [discriminate|].
    apply in_app_or in Hin as [Hin|[<-|Hin]].
    + rewrite (part_event_not_banner _ _ Hev Hin) in Hb. discriminate.
    + eauto.
    + rewrite (comments_not_banner _ _ Hin) in Hb. discriminate.
  - rewrite Ha in Hin. simpl trace in Hin.
    destruct Hin as [<-|Hin]; [discriminate|].
    apply in_app_or in Hin as [Hin|Hin].
    + rewrite (part_event_not_banner _ _ Hev Hin) in Hb. discriminate.
    + rewrite (fallback_not_banner _ _ Hin) in Hb. discriminate.
Qed.

(** A rendering never lets an exception out. *)
Lemma render_result_total v result : outcome (render_result v result) = inr tt.
Proof.
  destruct (json_loads result) as [data|] eqn:H.
  - destruct (render_result_cases v result data H) as (t & _ & [Hc | [_ Ha]]).
    + destruct Hc as (d & _ & _ & _ & ->). reflexivity.
    + rewrite Ha. reflexivity.
  - rewrite (render_result_invalid _ _ H). reflexivity.
Qed.

Lemma filter_none {A : Type} (f : A -> bool) (l : list A) :
  (forall x, In x l -> f x = false) -> filter f l = [].
Proof.
  induction l as [|x l IH]; intros H; [reflexivity|].
  simpl. rewrite (H x (or_introl eq_refl)). apply IH. intros y Hy. apply H. right. exact Hy.
Qed.

(** A banner or a comments heading is only found in a report that was
    rendered in full. *)
Lemma structured_event_in_full_report v result data ev :
  json_loads result = Some data ->
  In ev (trace (render_result v result)) ->
  is_grade_banner ev = true \/ ev = st_markdown "### Overall Comments" ->
  exists d, data = VDict d /\ renders_in_full v d = true.
Proof.
  intros H Hin Hkind.
  destruct (render_result_cases v result data H) as (t & Hev & [Hc | [_ Ha]]).
  - destruct Hc as (d & -> & Hw & _). eauto.
  - exfalso. rewrite Ha in Hin. simpl trace in Hin.
    destruct Hin as [<-|Hin]; [destruct Hkind; discriminate|].
    apply in_app_or in Hin as [Hin|Hin].
    + destruct Hkind as [Hb | ->].
      * rewrite (part_event_not_banner _ _ Hev Hin) in Hb. discriminate.
      * rewrite Forall_forall in Hev. apply Hev in Hin. destruct Hin.
    + destruct Hkind as [Hb | ->].
      * rewrite (fallback_not_banner _ _ Hin) in Hb. discriminate.
      * simpl in Hin. destruct Hin as [Hin|[Hin|[]]]; discriminate.
Qed.

Lemma grade_indicator_cases raw :
  (lower (py_str raw) = "pass" -> grade_indicator raw = st_success "Final Grade: PASS")
  /\ (lower (py_str raw) = "fail" -> grade_indicator raw = st_error "Final Grade: FAIL")
  /\ (lower (py_str raw) <> "pass" -> lower (py_str raw) <> "fail" ->
      grade_indicator raw = st_info ("Final Grade: " ++ py_str raw)).
Proof.
  unfold grade_indicator.
  split; [intros ->; reflexivity|].
  split; [intros ->; reflexivity|].
  intros Hp Hf. apply String.eqb_neq in Hp, Hf. rewrite Hp, Hf. reflexivity.
Qed.

(** C1. The grade shown is the payload's own [final_grade]: any banner in
    the rendered report is the indicator of that field (a function of the
    field alone, the criteria play no part), it is shown whenever the
    rendering gets through the parts, whatever the criteria say, and a
    payload carrying "fail" never shows PASS, one carrying "pass" never
    shows FAIL. *)
Theorem final_grade_shown_verbatim :
  forall (v : variant) (result : string) (data : pyval),
    json_loads result = Some data ->
    let t := trace (render_result v result) in
    (forall ev, In ev t -> is_grade_banner ev = true ->
       exists d, data = VDict d
                 /\ ev = grade_indicator (lookup_default d "final_grade" (VStr "")))
    /\ (forall d, data = VDict d -> renders_in_full v d = true ->
         In (grade_indicator (lookup_default d "final_grade" (VStr ""))) t)
    /\ (forall d s, data = VDict d ->
         dict_lookup d "final_grade" = Some (VStr s) -> lower s = "fail" ->
         (forall body, ~ In (st_success body) t)
         /\ (renders_in_full v d = true -> In (st_error "Final Grade: FAIL") t))
    /\ (forall d s, data = VDict d ->
         dict_lookup d "final_grade" = Some (VStr s) -> lower s = "pass" ->
         (forall body, ~ In (st_error body) t)
         /\ (renders_in_full v d = true -> In (st_success "Final Grade: PASS") t)).
Proof.
  intros v result data H t.
  assert (Hshown : forall d, data = VDict d -> renders_in_full v d = true ->
            In (grade_indicator (lookup_default d "final_grade" (VStr ""))) t).
  { intros d -> Hw. unfold t.
    rewrite (render_result_complete v result d _ H (render_parts_ok _ _ Hw)).
    simpl. right. apply in_or_app. right. left. reflexivity. }
  split; [intros ev; apply banner_in_render_result; exact H|].
  split; [exact Hshown|].
  split; intros d s -> Hs Hl.
  - assert (Hg : grade_indicator (lookup_default d "final_grade" (VStr ""))
                 = st_error "Final Grade: FAIL").
    { unfold grade_indicator, lookup_default. rewrite Hs. simpl py_str. rewrite Hl.
      reflexivity. }
    split.
    + intros body Hin.
      destruct (banner_in_render_result v result _ _ H Hin eq_refl) as (d' & E & Hev).
      injection E as <-. rewrite Hg in Hev. discriminate.
    + intros Hw. rewrite <- Hg. apply Hshown; auto.
  - assert (Hg : grade_indicator (lookup_default d "final_grade" (VStr ""))
                 = st_success "Final Grade: PASS").
    { unfold grade_indicator, lookup_default. rewrite Hs. simpl py_str. rewrite Hl.
      reflexivity. }
    split.
    + intros body Hin.
      destruct (banner_in_render_result v result _ _ H Hin eq_refl) as (d' & E & Hev).
      injection E as <-. rewrite Hg in Hev. discriminate.
    + intros Hw. rewrite <- Hg. apply Hshown; auto.
Qed.

(** C2 as the specification words it, for a payload object: the report
    shows a success indicator for a grade that reads "pass", a failure
    indicator for one that reads "fail", and the neutral display of the raw
    value for anything else, an absent field included. *)
Definition overall_grade_rendered (d : list (string * pyval)) (t : list event) : Prop :=
  let raw := lookup_default d "final_grade" (VStr "") in
  (lower (py_str raw) = "pass" -> exists body, In (st_success body) t)
  /\ (lower (py_str raw) = "fail" -> exists body, In (st_error body) t)
  /\ (lower (py_str raw) <> "pass" -> lower (py_str raw) <> "fail" ->
      In (st_info ("Final Grade: " ++ py_str raw)) t).

(** C2, amended. On a payload object whose mapping parts hold only mapping
    criteria, the report shows, after the parts and before the comments,
    exactly one indicator: success for a grade that reads "pass", failure
    for one that reads "fail", and otherwise, an absent field included, the
    neutral display of the raw value. An indicator is found in such reports
    only; the banner step on a payload object, and the rendering on any
    text, never raise. *)
Theorem final_grade_indicator_in_report :
  (forall (v : variant) (result : string) (d : list (string * pyval)),
     json_loads result = Some (VDict d) ->
     renders_in_full v d = true ->
     let raw := lookup_default d "final_grade" (VStr "") in
     let t := trace (render_result v result) in
     exists ev,
       render_result v result
       = (st_subheader "Result"
            :: (flat_map (part_section d) (parts v)
                  ++ ev :: comments_section
                             (lookup_default d "overall_comments" (VStr "")))%list,
          inr tt)
       /\ filter is_grade_banner t = [ev]
       /\ (lower (py_str raw) = "pass" -> ev = st_success "Final Grade: PASS")
       /\ (lower (py_str raw) = "fail" -> ev = st_error "Final Grade: FAIL")
       /\ (lower (py_str raw) <> "pass" -> lower (py_str raw) <> "fail" ->
           ev = st_info ("Final Grade: " ++ py_str raw))
       /\ (dict_lookup d "final_grade" = None -> ev = st_info "Final Grade: ")
       /\ overall_grade_rendered d t)
  /\ (forall (v : variant) (result : string) (data : pyval) (ev : event),
        json_loads result = Some data ->
        In ev (trace (render_result v result)) -> is_grade_banner ev = true ->
        exists d, data = VDict d /\ renders_in_full v d = true)
  /\ (forall d : list (string * pyval),
        exists ev, final_grade_banner (VDict d) = ([ev], inr tt))
  /\ (forall (v : variant) (result : string),
        outcome (render_result v result) = inr tt).
Proof.
  split; [|split; [|split]].
  - intros v result d H Hw raw t.
    pose proof (render_result_complete v result d _ H (render_parts_ok _ _ Hw)) as Hr.
    destruct (grade_indicator_cases raw) as (Hpass & Hfail & Hother).
    assert (Hin : In (grade_indicator raw) t).
    { unfold t. rewrite Hr. simpl. right. apply in_or_app. right. left. reflexivity. }
    assert (Hbanner : is_grade_banner (grade_indicator raw) = true).
    { unfold grade_indicator.
      destruct (String.eqb _ "pass"); [reflexivity|].
      destruct (String.eqb _ "fail"); reflexivity. }
    exists (grade_indicator raw).
    split; [exact Hr|].
    split.
    { unfold t. rewrite Hr. simpl trace. cbn [filter is_grade_banner].
      rewrite filter_app. cbn [filter]. fold raw. rewrite Hbanner.
      rewrite (filter_none is_grade_banner (flat_map (part_section d) (parts v))).
      - rewrite (filter_none is_grade_banner (comments_section _)); [reflexivity|].
        intros ev. apply comments_not_banner.
      - intros ev. apply part_event_not_banner.
        apply Forall_flat_map, Forall_forall. intros ? _. apply part_section_events. }
    split; [exact Hpass|].
    split; [exact Hfail|].
    split; [exact Hother|].
    split.
    { intros Hn. unfold raw, lookup_default. rewrite Hn. reflexivity. }
    unfold overall_grade_rendered. fold raw.
    split; [intros E; eexists; rewrite <- (Hpass E); exact Hin|].
    split; [intros E; eexists; rewrite <- (Hfail E); exact Hin|].
    intros E1 E2. rewrite <- (Hother E1 E2). exact Hin.
  - intros v result data ev H Hin Hb.
    apply (structured_event_in_full_report v result data ev H Hin). left. exact Hb.
  - intros d. eexists. apply final_grade_banner_dict.
  - intros v result. apply render_result_total.
Qed.

(** C3. A text that is not valid JSON is shown as it is: after the heading
    come the warning and the raw string, nothing of a structure, and no
    exception leaves the rendering. *)
Theorem invalid_json_shown_raw :
  forall (v : variant) (result : string),
    json_loads result = None ->
    render_result v result
    = ([st_subheader "Result";
        st_warning "Could not parse the evaluation into sections. Showing compact text.";
        st_write (VStr result)],
       inr tt).
Proof. intros v result H. apply render_result_invalid. exact H. Qed.

(** C4 as the specification words it, for a payload object: every expected
    part field that is a mapping gets its section and one card for each of
    its criteria. *)
Definition every_mapping_part_rendered
  (v : variant) (d : list (string * pyval)) (t : list event) : Prop :=
  forall key title items,
    In (key, title) (parts v) -> dict_lookup d key = Some (VDict items) ->
    In (st_section title) t
    /\ forall k val, In (k, val) items ->
         exists badge color explanation, In (st_item badge k color explanation) t.

(** C4, amended. On a payload object whose mapping parts hold only mapping
    criteria, the parts are rendered in the script's order: nothing for a
    field that is absent or no mapping, the section and one card per
    criterion for a field that is a mapping; the banner and the comments
    follow and no exception is raised. *)
Theorem parts_rendered_or_skipped :
  forall (v : variant) (result : string) (d : list (string * pyval)),
    json_loads result = Some (VDict d) ->
    renders_in_full v d = true ->
    render_result v result
    = (st_subheader "Result"
         :: (flat_map (part_section d) (parts v)
               ++ grade_indicator (lookup_default d "final_grade" (VStr ""))
               :: comments_section (lookup_default d "overall_comments" (VStr "")))%list,
       inr tt)
    /\ (forall part, dict_lookup d (fst part) = None -> part_section d part = [])
    /\ (forall part x, dict_lookup d (fst part) = Some x -> isinstance_dict x = false ->
         part_section d part = [])
    /\ (forall part items, dict_lookup d (fst part) = Some (VDict items) ->
         part_section d part
         = st_section (snd part)
             :: map (fun kv => criterion_card (fst kv) (fields_of (snd kv))) items)
    /\ every_mapping_part_rendered v d (trace (render_result v result)).
Proof.
  intros v result d H Hw.
  pose proof (render_result_complete v result d _ H (render_parts_ok _ _ Hw)) as Hr.
  split; [exact Hr|].
  split; [intros part Hn; unfold part_section; rewrite Hn; reflexivity|].
  split; [intros part x Hx Hd; unfold part_section; rewrite Hx;
          destruct x; try reflexivity; discriminate|].
  split; [intros part items Hi; unfold part_section; rewrite Hi; reflexivity|].
  intros key title items Hin Hl. rewrite Hr. simpl trace.
  assert (Hsec : forall ev, In ev (part_section d (key, title)) ->
            In ev (st_subheader "Result"
                     :: (flat_map (part_section d) (parts v)
                           ++ grade_indicator (lookup_default d "final_grade" (VStr ""))
                           :: comments_section
                                (lookup_default d "overall_comments" (VStr "")))%list)).
  { intros ev Hev. right. apply in_or_app. left. apply in_flat_map.
    exists (key, title). auto. }
  unfold part_section in Hsec. cbn [fst snd] in Hsec. rewrite Hl in Hsec.
  split; [apply Hsec; left; reflexivity|].
  intros k val Hkv. eexists _, _, _. apply Hsec. right. unfold cards.
  apply in_map_iff. exists (k, val). split; [reflexivity | exact Hkv].
Qed.

(** C8 as the specification words it, for a payload object: comments that
    are present and non-empty are shown, as they are, under the heading;
    absent or empty ones leave no heading. *)
Definition overall_comments_rendered (d : list (string * pyval)) (t : list event) : Prop :=
  (forall s, dict_lookup d "overall_comments" = Some (VStr s) -> s <> "" ->
     In (st_markdown "### Overall Comments") t /\ In (st_write (VStr s)) t)
  /\ (dict_lookup d "overall_comments" = None
      \/ dict_lookup d "overall_comments" = Some (VStr "") ->
      ~ In (st_markdown "### Overall Comments") t).

(** C8, amended. On a payload object whose mapping parts hold only mapping
    criteria, the report ends with the heading and the comments, as they
    are, exactly when the field holds something true: a non-empty string,
    for a string; when it is absent or empty the report ends with the
    banner and holds no heading. The heading is found in such reports only,
    and only for a true field. The comments step itself shows the two
    events under the same condition. The payload of the example renders, in
    the digital-disruption script, as Part 1 with one green card, FAIL and
    no comments. *)
Theorem overall_comments_iff_nonempty :
  (forall (v : variant) (result : string) (d : list (string * pyval)),
     json_loads result = Some (VDict d) ->
     renders_in_full v d = true ->
     let comments := lookup_default d "overall_comments" (VStr "") in
     let t := trace (render_result v result) in
     render_result v result
     = (st_subheader "Result"
          :: (flat_map (part_section d) (parts v)
                ++ grade_indicator (lookup_default d "final_grade" (VStr ""))
                :: (if truthy comments
                    then [st_markdown "### Overall Comments"; st_write comments]
                    else []))%list,
        inr tt)
     /\ (In (st_markdown "### Overall Comments") t <-> truthy comments = true)
     /\ (forall s, dict_lookup d "overall_comments" = Some (VStr s) ->
          (In (st_markdown "### Overall Comments") t <-> s <> ""))
     /\ (dict_lookup d "overall_comments" = None ->
         ~ In (st_markdown "### Overall Comments") t)
     /\ overall_comments_rendered d t)
  /\ (forall (v : variant) (result : string) (data : pyval),
        json_loads result = Some data ->
        In (st_markdown "### Overall Comments") (trace (render_result v result)) ->
        exists d c, data = VDict d /\ renders_in_full v d = true
                    /\ dict_lookup d "overall_comments" = Some c
                    /\ truthy c = true)
  /\ (forall d : list (string * pyval),
        let comments := lookup_default d "overall_comments" (VStr "") in
        (overall_comments (VDict d)
         = (if truthy comments
            then [st_markdown "### Overall Comments"; st_write comments] else [],
            inr tt))
        /\ (dict_lookup d "overall_comments" = None -> truthy comments = false)
        /\ (forall s, dict_lookup d "overall_comments" = Some (VStr s) ->
             (truthy comments = true <-> s <> "")))
  /\ (forall result : string,
        json_loads result
        = Some (VDict [("part1", VDict [("Q1", VDict [("value", VStr "yes");
                                                     ("explanation", VStr "ok")])]);
                       ("final_grade", VStr "fail");
                       ("overall_comments", VStr "")]) ->
        render_result evaluator_digital_disruption result
        = ([st_subheader "Result";
            st_section "Part 1 — Business Model";
            st_item "✅" "Q1" "#0f766e" "ok";
            st_error "Final Grade: FAIL"],
           inr tt)).
Proof.
  assert (Hstr : forall d s, dict_lookup d "overall_comments" = Some (VStr s) ->
            (truthy (lookup_default d "overall_comments" (VStr "")) = true <-> s <> "")).
  { intros d s Hs. unfold lookup_default. rewrite Hs. simpl.
    destruct s; simpl; split; intros; congruence. }
  assert (Habsent : forall d, dict_lookup d "overall_comments" = None ->
            truthy (lookup_default d "overall_comments" (VStr "")) = false).
  { intros d Hn. unfold lookup_default. rewrite Hn. reflexivity. }
  split; [|split; [|split]].
  - intros v result d H Hw comments t.
    pose proof (render_result_complete v result d _ H (render_parts_ok _ _ Hw)) as Hr.
    assert (Hiff : In (st_markdown "### Overall Comments") t <-> truthy comments = true).
    { unfold t. rewrite Hr. simpl trace. fold comments. split.
      - intros [Hin|Hin]; [discriminate|].
        apply in_app_or in Hin as [Hin|[Hin|Hin]].
        + exfalso.
          assert (Hev : Forall part_event (flat_map (part_section d) (parts v))).
          { apply Forall_flat_map, Forall_forall. intros ? _. apply part_section_events. }
          rewrite Forall_forall in Hev. apply Hev in Hin. destruct Hin.
        + exfalso. unfold grade_indicator in Hin.
          destruct (String.eqb _ "pass"); [discriminate|].
          destruct (String.eqb _ "fail"); discriminate.
        + unfold comments_section in Hin.
          destruct (truthy comments); [reflexivity | destruct Hin].
      - intros Ht. right. apply in_or_app. right. right.
        unfold comments_section. rewrite Ht. left. reflexivity. }
    split; [exact Hr|].
    split; [exact Hiff|].
    split; [intros s Hs; rewrite Hiff; apply Hstr; exact Hs|].
    split.
    { intros Hn Hin. apply Hiff in Hin. unfold comments in Hin.
      rewrite (Habsent d Hn) in Hin. discriminate. }
    split.
    + intros s Hs Hne.
      assert (Ht : truthy comments = true) by (apply (Hstr d s Hs); exact Hne).
      split; [apply Hiff; exact Ht|].
      unfold t. rewrite Hr. simpl trace. fold comments. right. apply in_or_app.
      right. right. unfold comments_section. rewrite Ht.
      unfold comments, lookup_default. rewrite Hs. right. left. reflexivity.
    + intros Hor Hin. apply Hiff in Hin. unfold comments in Hin.
      destruct Hor as [Hn | He].
      * rewrite (Habsent d Hn) in Hin. discriminate.
      * apply (Hstr d "" He) in Hin. apply Hin. reflexivity.
  - intros v result data H Hin.
    destruct (structured_event_in_full_report v result data _ H Hin
                (or_intror eq_refl)) as (d & -> & Hw).
    exists d.
    pose proof (render_result_complete v result d _ H (render_parts_ok _ _ Hw)) as Hr.
    rewrite Hr in Hin. simpl trace in Hin.
    destruct Hin as [Hin|Hin]; [discriminate|].
    apply in_app_or in Hin as [Hin|[Hin|Hin]].
    + exfalso.
      assert (Hev : Forall part_event (flat_map (part_section d) (parts v))).
      { apply Forall_flat_map, Forall_forall. intros ? _. apply part_section_events. }
      rewrite Forall_forall in Hev. apply Hev in Hin. destruct Hin.
    + exfalso. unfold grade_indicator in Hin.
      destruct (String.eqb _ "pass"); [discriminate|].
      destruct (String.eqb _ "fail"); discriminate.
    + unfold comments_section, lookup_default in Hin.
      destruct (dict_lookup d "overall_comments") as [c|] eqn:Hc.
      * destruct (truthy c) eqn:Ht; [|destruct Hin]. exists c. auto.
      * destruct Hin.
  - intros d comments. split; [apply overall_comments_dict|].
    split; [apply Habsent | apply Hstr].
  - intros result H. unfold render_result, render_structured. rewrite H. reflexivity.
Qed.

(** C10. A criterion that is no mapping, in a part that is rendered, ends
    the structured rendering where it stands: the loop stops at the first
    such criterion with the cards drawn so far, and the report is closed by
    the warning and the raw text, without banner or comments, and without
    an exception leaving the rendering. *)
Theorem non_mapping_criterion_falls_back :
  (forall pre key val post,
     all_mappings pre = true -> isinstance_dict val = false ->
     render_items (pre ++ (key, val) :: post)%list
     = (map (fun kv => criterion_card (fst kv) (fields_of (snd kv))) pre,
        inl AttributeError))
  /\ (forall (v : variant) (result : string) (d : list (string * pyval))
            part items k val,
        json_loads result = Some (VDict d) ->
        In part (parts v) ->
        dict_lookup d (fst part) = Some (VDict items) ->
        In (k, val) items -> isinstance_dict val = false ->
        exists t,
          render_result v result
          = (st_subheader "Result"
               :: (t ++ [st_warning
                           "Could not parse the evaluation into sections. Showing compact text.";
                         st_write (VStr result)])%list,
             inr tt)
          /\ Forall part_event t).
Proof.
  split; [exact render_items_abort|].
  intros v result d part items k val H Hin Hl Hkv Hval.
  assert (Hw : renders_in_full v d = false).
  { unfold renders_in_full. apply not_true_is_false. intros Hall.
    rewrite forallb_forall in Hall. specialize (Hall _ Hin).
    unfold part_well_formed in Hall. rewrite Hl in Hall.
    unfold all_mappings in Hall. rewrite forallb_forall in Hall.
    specialize (Hall _ Hkv). simpl in Hall. congruence. }
  destruct (render_parts_abort _ _ Hw) as (t & Ht & Hev).
  exists t. split; [|exact Hev].
  apply (render_result_aborted v result _ t _ H Ht).
Qed.

(** ** Properties of the extraction *)

(** The text the scan of [response.output] stops at, when it stops. *)
Definition scan_found (r : response) : option pyval :=
  match scan_output (output_or_empty r) VNone with
  | inr t => if truthy t then Some t else None
  | inl _ => None
  end.

(** A part of another type than "output_text". *)
Definition other_segment (c : segment) : Prop :=
  exists t, seg_type c = Some t /\ py_eq_str t "output_text" = false.

(** An output item in which the scan meets no "output_text" part. *)
Definition no_output_text (out : output_item) : Prop :=
  out_content out = absent
  \/ exists cs, out_content out = has cs /\ Forall other_segment cs.

Lemma scan_content_skip cs rest :
  Forall other_segment cs -> scan_content (cs ++ rest)%list = scan_content rest.
Proof.
  induction 1 as [|c cs (t & Ht & Hne) _ IH]; [reflexivity|].
  simpl. rewrite Ht, Hne. exact IH.
Qed.

Lemma scan_output_skip pre rest t :
  truthy t = false -> Forall no_output_text pre ->
  scan_output (pre ++ rest)%list t = scan_output rest t.
Proof.
  intros Ht. induction 1 as [|out pre Hout _ IH]; [reflexivity|].
  simpl. destruct Hout as [-> | (cs & -> & Hcs)].
  - rewrite Ht. exact IH.
  - rewrite <- (app_nil_r cs), (scan_content_skip _ _ Hcs). simpl.
    rewrite Ht. exact IH.
Qed.

Lemma nonempty_true s : s <> "" -> nonempty s = true.
Proof. destruct s; [congruence | reflexivity]. Qed.

Lemma scan_output_first pre out post cs1 c cs2 s :
  Forall no_output_text pre ->
  out_content out = has (cs1 ++ c :: cs2)%list ->
  Forall other_segment cs1 ->
  seg_type c = Some (VStr "output_text") -> seg_text c = Some (VStr s) -> s <> "" ->
  scan_output (pre ++ out :: post)%list VNone = inr (VStr s).
Proof.
  intros Hpre Hout Hcs Hty Htx Hs.
  rewrite (scan_output_skip pre (out :: post) VNone eq_refl Hpre). simpl.
  rewrite Hout, (scan_content_skip _ _ Hcs). simpl. rewrite Hty, Htx. simpl.
  rewrite (nonempty_true _ Hs). reflexivity.
Qed.

Lemma call_agent_answered v environ api_key model user_text key r :
  OpenAI api_key environ = inr key ->
  remote (build_request v key model user_text) = inr r ->
  call_agent v environ api_key model user_text
  = ([responses_create (build_request v key model user_text)], inr (extract_text r)).
Proof.
  intros Hk Hr. unfold call_agent, lift. rewrite Hk, bind_inr. simpl.
  unfold lift. rewrite Hr. reflexivity.
Qed.

Lemma call_agent_failed v environ api_key model user_text key e :
  OpenAI api_key environ = inr key ->
  remote (build_request v key model user_text) = inl e ->
  call_agent v environ api_key model user_text
  = ([responses_create (build_request v key model user_text)], inl e).
Proof.
  intros Hk Hr. unfold call_agent, lift. rewrite Hk, bind_inr. simpl.
  unfold lift. rewrite Hr. reflexivity.
Qed.

Ltac not_a_string H :=
  solve [ exfalso; eapply H; reflexivity ].

(** C7. The text returned for a response follows the chain: the text the
    scan of the output list stops at (the first "output_text" part met,
    when it holds a non-empty text), else the response's [output_text]
    when that is a non-empty string, else its [content] when that is a
    string; when none of the three is a string, the serialized response.
    The function is total, so a string always comes back, and
    [call_agent] ends normally once the service has answered. *)
Theorem extract_text_chain :
  forall r : response,
    (forall s, scan_found r = Some (VStr s) -> extract_text r = s)
    /\ (forall s, scan_found r = None -> output_text r = Some (VStr s) -> s <> "" ->
         extract_text r = s)
    /\ (forall s, scan_found r = None ->
         truthy (getattr_or_None (output_text r)) = false ->
         content r = Some (VStr s) ->
         extract_text r = s)
    /\ ((forall s, scan_found r <> Some (VStr s)) ->
        (forall s, output_text r <> Some (VStr s)) ->
        (forall s, content r <> Some (VStr s)) ->
        extract_text r = json_dumps r)
    /\ (forall pre out post cs1 c cs2 s,
         output r = has (pre ++ out :: post)%list ->
         Forall no_output_text pre ->
         out_content out = has (cs1 ++ c :: cs2)%list ->
         Forall other_segment cs1 ->
         seg_type c = Some (VStr "output_text") -> seg_text c = Some (VStr s) ->
         s <> "" ->
         scan_found r = Some (VStr s))
    /\ (Forall no_output_text (output_or_empty r) -> scan_found r = None)
    /\ (forall v environ api_key model user_text key,
         OpenAI api_key environ = inr key ->
         remote (build_request v key model user_text) = inr r ->
         call_agent v environ api_key model user_text
         = ([responses_create (build_request v key model user_text)],
            inr (extract_text r))).
Proof.
  intros r. unfold scan_found, extract_text, scan_response.
  repeat split.
  - intros s H. destruct (scan_output _ _) as [e|t]; [discriminate|].
    destruct (truthy t) eqn:Ht; [|discriminate]. injection H as ->.
    simpl in *. rewrite Ht. reflexivity.
  - intros s H Hot Hs. rewrite Hot. pose proof (nonempty_true _ Hs) as Hn.
    destruct (scan_output _ _) as [e|t].
    + simpl. unfold py_or. simpl. rewrite Hn. reflexivity.
    + destruct (truthy t) eqn:Ht; [discriminate|]. simpl. rewrite Hn. reflexivity.
  - intros s H Hot Hct. rewrite Hct.
    destruct (scan_output _ _) as [e|t].
    + simpl. unfold py_or. rewrite Hot. reflexivity.
    + destruct (truthy t) eqn:Ht; [discriminate|]. simpl negb.
      destruct (output_text r) as [ot|]; simpl in *.
      * rewrite Hot. simpl. unfold py_or. rewrite Hot. reflexivity.
      * rewrite Ht. simpl. reflexivity.
  - intros Hscan Hot Hct.
    assert (Hor : match py_or (getattr_or_None (output_text r))
                              (getattr_or_None (content r)) with
                  | VStr s => s
                  | _ => json_dumps r
                  end = json_dumps r).
    { unfold py_or.
      destruct (output_text r) as [[]|]; destruct (content r) as [[]|]; simpl;
        try reflexivity; try not_a_string Hot; try not_a_string Hct;
        match goal with |- context [if ?b then _ else _] => destruct b end;
        reflexivity. }
    destruct (scan_output _ _) as [e|t]; [exact Hor|].
    destruct (truthy t) eqn:Ht.
    + simpl. rewrite Ht. simpl. destruct t; try reflexivity. not_a_string Hscan.
    + simpl negb. destruct (output_text r) as [ot|] eqn:Eot; simpl.
      * destruct (truthy ot) eqn:Hto.
        -- simpl. destruct ot; try reflexivity. not_a_string Hot.
        -- simpl. simpl in Hor. exact Hor.
      * rewrite Ht. simpl. simpl in Hor. exact Hor.
  - intros pre out post cs1 c cs2 s Hout Hpre Hc Hcs Hty Htx Hs.
    unfold output_or_empty. rewrite Hout.
    rewrite (scan_output_first _ _ _ _ _ _ _ Hpre Hc Hcs Hty Htx Hs).
    simpl. rewrite (nonempty_true _ Hs). reflexivity.
  - intros Hall. rewrite <- (app_nil_r (output_or_empty r)).
    rewrite (scan_output_skip _ [] VNone eq_refl Hall). reflexivity.
  - intros v environ api_key model user_text key. apply call_agent_answered.
Qed.

(** A true value that is no string ends the chain as well: the later
    fields are not read and the serialized response is returned. *)
Remark extract_text_non_string_stops (r : response) (t : pyval) :
  scan_found r = Some t -> isinstance_str t = false ->
  extract_text r = json_dumps r.
Proof.
  unfold scan_found, extract_text, scan_response.
  destruct (scan_output _ _) as [e|t']; [discriminate|].
  destruct (truthy t') eqn:Ht; [|discriminate].
  intros E Hs. injection E as ->. simpl. rewrite Ht. simpl.
  destruct t; try reflexivity. discriminate Hs.
Qed.

(** ** Properties of the handler and of the script *)

(** With a submission and a credential the handler sends one request and
    renders the answer. *)
Lemma run_handler_answered v environ api_key model user_text key r :
  nonempty (strip user_text) = true ->
  no_credential v environ api_key = false ->
  OpenAI api_key environ = inr key ->
  remote (build_request v key model user_text) = inr r ->
  run_handler v environ api_key model user_text
  = (st_spinner "Evaluating..."
       :: responses_create (build_request v key model user_text)
       :: trace (render_result v (extract_text r)),
     inr tt).
Proof.
  intros Htext Hcred Hkey Hr. unfold run_handler. rewrite Htext, Hcred. cbn [negb].
  rewrite (call_agent_answered _ _ _ _ _ _ _ Hkey Hr).
  change (emit (st_spinner "Evaluating..."))
    with ([st_spinner "Evaluating..."], @inr exn unit tt).
  rewrite !bind_inr, render_result_total. reflexivity.
Qed.

(** A failure of the service is shown and goes no further. *)
Lemma run_handler_failed v environ api_key model user_text key e :
  nonempty (strip user_text) = true ->
  no_credential v environ api_key = false ->
  OpenAI api_key environ = inr key ->
  remote (build_request v key model user_text) = inl e ->
  run_handler v environ api_key model user_text
  = ([st_spinner "Evaluating...";
      responses_create (build_request v key model user_text);
      st_error ("Evaluation failed: " ++ exn_str e);
      st_exception e],
     inr tt).
Proof.
  intros Htext Hcred Hkey Hr. unfold run_handler. rewrite Htext, Hcred. cbn [negb].
  rewrite (call_agent_failed _ _ _ _ _ _ _ Hkey Hr).
  change (emit (st_spinner "Evaluating..."))
    with ([st_spinner "Evaluating..."], @inr exn unit tt).
  rewrite bind_inr, bind_inl. reflexivity.
Qed.

(** What the credential lines do with the secrets: the lookup of the
    digital-disruption script, and the [get] of the transformation-plan
    script, case by case. *)
Lemma secrets_getitem_cases s k :
  match secrets_file s with
  | None =>
      secrets s k = None /\ secrets_getitem s k = inl StreamlitSecretNotFoundError
  | Some _ =>
      match secrets s k with
      | Some x => secrets_getitem s k = inr x
      | None => secrets_getitem s k = inl (KeyError k)
      end
  end.
Proof.
  unfold secrets, secrets_getitem. destruct (secrets_file s) as [m|]; [|auto].
  destruct (m k); reflexivity.
Qed.

Lemma secrets_get_cases s k default :
  match secrets_file s with
  | None => secrets_get s k default = inl StreamlitSecretNotFoundError
  | Some _ =>
      secrets_get s k default
      = inr match secrets s k with
            | Some x => x
            | None => default
            end
  end.
Proof.
  unfold secrets, secrets_get, secrets_getitem.
  destruct (secrets_file s) as [m|]; [|reflexivity].
  destruct (m k); reflexivity.
Qed.


(** A script past its credential lines runs the handler when the button is
    pressed; one that raised there has shown nothing. *)
Lemma script_with_credential v s api_key environ :
  acquire_credential v s = inr (api_key, environ) ->
  script v s
  = if button s then run_handler v environ api_key (model_input s) (submission s)
    else ([], inr tt).
Proof.
  intros Ha. unfold script, lift. rewrite Ha, bind_inr. simpl app.
  destruct (button s); [|reflexivity].
  destruct (run_handler v environ api_key (model_input s) (submission s)); reflexivity.
Qed.

Lemma script_credential_raised v s e :
  acquire_credential v s = inl e -> script v s = ([], inl e).
Proof. intros Ha. unfold script, lift. rewrite Ha. reflexivity. Qed.

Lemma credential_warning_shown v environ api_key model user_text :
  nonempty (strip user_text) = true ->
  no_credential v environ api_key = true ->
  run_handler v environ api_key model user_text
  = ([st_warning (credential_warning v)], inr tt).
Proof. intros Ht Hc. unfold run_handler. rewrite Ht, Hc. reflexivity. Qed.

Lemma string_app_nil_r s : s ++ "" = s.
Proof. induction s; simpl; congruence. Qed.

Lemma string_app_assoc a b c : (a ++ b) ++ c = a ++ (b ++ c).
Proof. induction a; simpl; congruence. Qed.

Lemma string_length_app a b : String.length (a ++ b) = String.length a + String.length b.
Proof. induction a; simpl; congruence. Qed.

Lemma string_rev_app a b : string_rev (a ++ b) = string_rev b ++ string_rev a.
Proof.
  induction a; simpl.
  - rewrite string_app_nil_r. reflexivity.
  - rewrite IHa, string_app_assoc. reflexivity.
Qed.

(** The concatenation of the pieces of a text. *)
Definition join (pieces : list string) : string := fold_right String.append "" pieces.

Lemma string_rev_join (f : N -> string) cps :
  string_rev (join (map f cps)) = join (map (fun cp => string_rev (f cp)) (rev cps)).
Proof.
  induction cps as [|cp cps IH]; [reflexivity|].
  simpl. rewrite string_rev_app, IH, map_app. unfold join.
  rewrite fold_right_app. simpl. rewrite string_app_nil_r.
  generalize (map (fun cp0 => string_rev (f cp0)) (rev cps)) as l.
  induction l as [|x l IHl]; simpl; [reflexivity|].
  rewrite string_app_assoc, IHl. reflexivity.
Qed.

(** A text made of the characters [strip] removes, and of nothing else;
    the empty text is one. *)
Definition whitespace_only (s : string) : Prop :=
  exists cps, Forall (fun cp => In cp whitespace_code_points) cps
              /\ s = join (map utf8 cps).

Lemma drop_whitespace_reversed cp rest :
  In cp whitespace_code_points ->
  drop_any (map (fun cp => string_rev (utf8 cp)) whitespace_code_points)
           (string_rev (utf8 cp) ++ rest) = Some rest.
Proof.
  intros H. simpl in H.
  repeat (destruct H as [<- | H]; [reflexivity|]). contradiction.
Qed.

Lemma utf8_length cp : 1 <= String.length (utf8 cp).
Proof.
  unfold utf8. destruct (cp <? 128)%N; [simpl; lia|].
  destruct (cp <? 2048)%N; simpl; lia.
Qed.

Lemma join_length cps : length cps <= String.length (join (map utf8 cps)).
Proof.
  induction cps as [|cp cps IH]; simpl; [lia|].
  rewrite string_length_app. pose proof (utf8_length cp). lia.
Qed.

Lemma lstrip_tokens_whitespace fuel cps :
  Forall (fun cp => In cp whitespace_code_points) cps ->
  length cps <= fuel ->
  lstrip_tokens fuel (map (fun cp => string_rev (utf8 cp)) whitespace_code_points)
    (join (map (fun cp => string_rev (utf8 cp)) cps)) = "".
Proof.
  revert cps. induction fuel as [|fuel IH]; intros cps Hall Hlen.
  - destruct cps; [reflexivity | simpl in Hlen; lia].
  - destruct cps as [|cp cps]; [reflexivity|].
    inversion Hall as [|? ? Hcp Hrest]; subst.
    cbn [map join fold_right lstrip_tokens].
    rewrite (drop_whitespace_reversed _ _ Hcp).
    apply IH; [exact Hrest | simpl in Hlen; lia].
Qed.

Lemma strip_whitespace_only s : whitespace_only s -> strip s = "".
Proof.
  intros (cps & Hall & ->). unfold strip, rstrip.
  rewrite string_rev_join, lstrip_tokens_whitespace.
  - reflexivity.
  - apply Forall_rev. exact Hall.
  - rewrite length_rev. apply join_length.
Qed.

Lemma transport_calls_app t1 t2 :
  transport_calls (t1 ++ t2)%list = (transport_calls t1 ++ transport_calls t2)%list.
Proof.
  induction t1 as [|ev t1 IH]; [reflexivity|].
  destruct ev; simpl; rewrite IH; reflexivity.
Qed.

Lemma blank_submission_handler v environ api_key model user_text :
  strip user_text = "" ->
  run_handler v environ api_key model user_text
  = ([st_warning "Please paste your submission text before evaluating."], inr tt).
Proof. intros H. unfold run_handler. rewrite H. reflexivity. Qed.

(** C5. With an empty or whitespace-only submission the handler of the
    button, in each of the four scripts and whatever key and environment it
    is given, shows the warning and nothing else; no request goes to the
    remote service, from the handler or from the script as a whole, and a
    script that gets past its credential lines to the button shows that
    warning alone. *)
Theorem empty_submission_warned :
  forall (v : variant) (user_text : string),
    whitespace_only user_text ->
    (forall environ api_key model,
       run_handler v environ api_key model user_text
       = ([st_warning "Please paste your submission text before evaluating."], inr tt)
       /\ transport_calls (trace (run_handler v environ api_key model user_text)) = [])
    /\ (forall s : session,
          submission s = user_text ->
          transport_calls (trace (script v s)) = []
          /\ (forall api_key environ,
                acquire_credential v s = inr (api_key, environ) -> button s = true ->
                script v s
                = ([st_warning "Please paste your submission text before evaluating."],
                   inr tt))).
Proof.
  intros v user_text Hws. pose proof (strip_whitespace_only _ Hws) as Hs. split.
  - intros environ api_key model.
    rewrite (blank_submission_handler _ _ _ _ _ Hs). split; reflexivity.
  - intros s Hsub. unfold script, lift. split.
    + destruct (acquire_credential v s) as [e|[api_key environ]]; [reflexivity|].
      rewrite bind_inr. simpl trace. destruct (button s); [|reflexivity].
      rewrite Hsub, (blank_submission_handler _ _ _ _ _ Hs). reflexivity.
    + intros api_key environ Hacq Hrun. rewrite Hacq, bind_inr, Hrun, Hsub.
      rewrite (blank_submission_handler _ _ _ _ _ Hs). reflexivity.
Qed.

(** C6 as the specification words it, for one script and one run: without
    an explicit key, a session secret or an environment variable, and with
    a submission, pressing the button shows a warning and sends nothing. *)
Definition missing_credential_warned (v : variant) (s : session) : Prop :=
  key_input s = "" ->
  secrets s "OPENAI_API_KEY" = None ->
  environ0 s "OPENAI_API_KEY" = None ->
  nonempty (strip (submission s)) = true ->
  button s = true ->
  exists body,
    script v s = ([st_warning body], inr tt)
    /\ transport_calls (trace (script v s)) = [].

(** C6, amended. Without a usable credential (no explicit key, secret and
    environment variable unset or empty) and with a submission, pressing the
    button sends nothing to the remote service in any script. The ecosystem
    and platform scripts show the credential warning; the
    transformation-plan script shows it whenever there is a secrets file;
    the digital-disruption script shows it when its secret is defined, and
    when the secret is not defined it ends at the lookup of the secret,
    before the button is read, and shows no warning. *)
Theorem missing_credential_no_call :
  forall (v : variant) (s : session),
    key_input s = "" ->
    get_truthy (secrets s) "OPENAI_API_KEY" = false ->
    get_truthy (environ0 s) "OPENAI_API_KEY" = false ->
    nonempty (strip (submission s)) = true ->
    button s = true ->
    transport_calls (trace (script v s)) = []
    /\ match v with
       | ecosystem_evaluator | platform_evaluator =>
           script v s = ([st_warning (credential_warning v)], inr tt)
       | evaluator_transformation_plan =>
           secrets_file s <> None ->
           script v s = ([st_warning (credential_warning v)], inr tt)
       | evaluator_digital_disruption =>
           (secrets s "OPENAI_API_KEY" <> None ->
            script v s = ([st_warning (credential_warning v)], inr tt))
           /\ (secrets s "OPENAI_API_KEY" = None ->
               script v s
               = ([], inl match secrets_file s with
                          | Some _ => KeyError "OPENAI_API_KEY"
                          | None => StreamlitSecretNotFoundError
                          end))
       end.
Proof.
  intros v s Hkey Hsec Henv Htext Hrun.
  assert (Hwarn : forall api_key environ,
            acquire_credential v s = inr (api_key, environ) ->
            no_credential v environ api_key = true ->
            script v s = ([st_warning (credential_warning v)], inr tt)).
  { intros k env Ha Hc. rewrite (script_with_credential _ _ _ _ Ha), Hrun.
    apply credential_warning_shown; assumption. }
  assert (Hopen : forall env, get_truthy env "OPENAI_API_KEY" = false ->
            negb (nonempty "") && negb (get_truthy env "OPENAI_API_KEY") = true).
  { intros env ->. reflexivity. }
  destruct v.
  - assert (Hw : script ecosystem_evaluator s
                 = ([st_warning (credential_warning ecosystem_evaluator)], inr tt)).
    { apply (Hwarn (key_input s) (environ0 s) eq_refl). simpl. rewrite Hkey.
      apply Hopen. exact Henv. }
    split; [rewrite Hw; reflexivity | exact Hw].
  - pose proof (secrets_getitem_cases s "OPENAI_API_KEY") as Hitem.
    unfold get_truthy in Hsec.
    destruct (secrets_file s) as [m|] eqn:Hf;
      destruct (secrets s "OPENAI_API_KEY") as [k|] eqn:Hk.
    + assert (Hw : script evaluator_digital_disruption s
                   = ([st_warning (credential_warning evaluator_digital_disruption)],
                      inr tt)).
      { apply (Hwarn k (setitem (environ0 s) "OPENAI_API_KEY" k)).
        - simpl. rewrite Hitem. reflexivity.
        - simpl. rewrite Hsec. unfold get_truthy, setitem. simpl. rewrite Hsec.
          reflexivity. }
      split; [rewrite Hw; reflexivity|]. split; [intros _; exact Hw | discriminate].
    + assert (Hr : script evaluator_digital_disruption s
                   = ([], inl (KeyError "OPENAI_API_KEY"))).
      { apply script_credential_raised. simpl. rewrite Hitem. reflexivity. }
      split; [rewrite Hr; reflexivity|]. split; [congruence | intros _; exact Hr].
    + destruct Hitem as [Hnone _]. discriminate Hnone.
    + destruct Hitem as [_ Hitem].
      assert (Hr : script evaluator_digital_disruption s
                   = ([], inl StreamlitSecretNotFoundError)).
      { apply script_credential_raised. simpl. rewrite Hitem. reflexivity. }
      split; [rewrite Hr; reflexivity|]. split; [congruence | intros _; exact Hr].
  - pose proof (secrets_get_cases s "OPENAI_API_KEY"
                  match environ0 s "OPENAI_API_KEY" with
                  | Some k => k
                  | None => ""
                  end) as Hget.
    unfold get_truthy in Hsec, Henv.
    destruct (secrets_file s) as [m|] eqn:Hf.
    + assert (Hw : script evaluator_transformation_plan s
                   = ([st_warning (credential_warning evaluator_transformation_plan)],
                      inr tt)).
      { apply (Hwarn "" (environ0 s)); [|reflexivity].
        simpl. rewrite Hget.
        destruct (secrets s "OPENAI_API_KEY") as [k|].
        - rewrite Hsec, Hkey. reflexivity.
        - destruct (environ0 s "OPENAI_API_KEY") as [k|];
            [rewrite Henv|]; rewrite Hkey; reflexivity. }
      split; [rewrite Hw; reflexivity | intros _; exact Hw].
    + assert (Hr : script evaluator_transformation_plan s
                   = ([], inl StreamlitSecretNotFoundError)).
      { apply script_credential_raised. simpl. rewrite Hget. reflexivity. }
      split; [rewrite Hr; reflexivity | congruence].
  - assert (Hw : script platform_evaluator s
                 = ([st_warning (credential_warning platform_evaluator)], inr tt)).
    { apply (Hwarn (key_input s) (environ0 s) eq_refl). simpl. rewrite Hkey.
      apply Hopen. exact Henv. }
    split; [rewrite Hw; reflexivity | exact Hw].
Qed.

(** ** The handler and the script as a whole *)

Lemma io_surjective {A} (m : io A) : (trace m, outcome m) = m.
Proof. destruct m; reflexivity. Qed.

Lemma part_events_no_calls t : Forall part_event t -> transport_calls t = [].
Proof.
  induction 1 as [|ev t Hev _ IH]; [reflexivity|].
  destruct ev; simpl in *; solve [exact IH | contradiction].
Qed.

(** A rendering sends nothing. *)
Lemma render_result_no_calls v result :
  transport_calls (trace (render_result v result)) = [].
Proof.
  destruct (json_loads result) as [data|] eqn:H.
  - destruct (render_result_cases v result data H) as (t & Hev & [Hc | [_ Ha]]).
    + destruct Hc as (d & _ & _ & _ & ->). simpl.
      rewrite transport_calls_app, (part_events_no_calls _ Hev). simpl.
      unfold grade_indicator, comments_section.
      destruct (String.eqb _ "pass"); [|destruct (String.eqb _ "fail")];
        destruct (truthy _); reflexivity.
    + rewrite Ha. simpl.
      rewrite transport_calls_app, (part_events_no_calls _ Hev). reflexivity.
  - rewrite (render_result_invalid _ _ H). reflexivity.
Qed.

Lemma get_truthy_true (m : mapping) k :
  get_truthy m k = true -> exists x, m k = Some x /\ nonempty x = true.
Proof. unfold get_truthy. destruct (m k) as [x|]; [eauto | discriminate]. Qed.

(** Past the credential test the client can be built: with the explicit
    key when there is one, with the environment's otherwise, and never with
    an empty key. *)
Lemma guard_gives_client v environ api_key :
  no_credential v environ api_key = false ->
  exists key,
    OpenAI api_key environ = inr key
    /\ nonempty key = true
    /\ (nonempty api_key = true -> key = api_key)
    /\ (nonempty api_key = false -> environ "OPENAI_API_KEY" = Some key).
Proof.
  intros H. unfold OpenAI. destruct (nonempty api_key) eqn:Hk.
  - exists api_key. repeat split; auto. discriminate.
  - destruct v; simpl in H; rewrite Hk in H; simpl in H; try discriminate H;
      apply negb_false_iff in H; destruct (get_truthy_true _ _ H) as (x & Hx & Hn);
      exists x; rewrite Hx; repeat split; auto; discriminate.
Qed.

Lemma run_handler_no_credential v environ api_key model user_text :
  nonempty (strip user_text) = true ->
  no_credential v environ api_key = true ->
  run_handler v environ api_key model user_text
  = ([st_warning (credential_warning v)], inr tt).
Proof. intros Ht Hc. unfold run_handler. rewrite Ht, Hc. reflexivity. Qed.

Lemma run_handler_blank v environ api_key model user_text :
  nonempty (strip user_text) = false ->
  run_handler v environ api_key model user_text
  = ([st_warning "Please paste your submission text before evaluating."], inr tt).
Proof. intros Ht. unfold run_handler. rewrite Ht. reflexivity. Qed.


(** The requests of a run of the handler. *)
Lemma run_handler_calls v environ api_key model user_text :
  transport_calls (trace (run_handler v environ api_key model user_text))
  = if nonempty (strip user_text) && negb (no_credential v environ api_key)
    then match OpenAI api_key environ with
         | inr key => [build_request v key model user_text]
         | inl _ => []
         end
    else [].
Proof.
  destruct (nonempty (strip user_text)) eqn:Ht;
    [|rewrite (run_handler_blank _ _ _ _ _ Ht); reflexivity].
  destruct (no_credential v environ api_key) eqn:Hc;
    [rewrite (run_handler_no_credential _ _ _ _ _ Ht Hc); reflexivity|].
  destruct (guard_gives_client _ _ _ Hc) as (key & Hkey & _). rewrite Hkey. simpl.
  destruct (remote (build_request v key model user_text)) as [e|r] eqn:Hr.
  - rewrite (run_handler_failed _ _ _ _ _ _ _ Ht Hc Hkey Hr). reflexivity.
  - rewrite (run_handler_answered _ _ _ _ _ _ _ Ht Hc Hkey Hr). simpl.
    rewrite render_result_no_calls. reflexivity.
Qed.

Lemma script_pressed v s api_key environ :
  acquire_credential v s = inr (api_key, environ) -> button s = true ->
  script v s = run_handler v environ api_key (model_input s) (submission s).
Proof.
  intros Ha Hb. unfold script, lift. rewrite Ha, bind_inr, Hb. simpl app.
  apply io_surjective.
Qed.

Lemma script_not_pressed v s api_key environ :
  acquire_credential v s = inr (api_key, environ) -> button s = false ->
  script v s = ([], inr tt).
Proof. intros Ha Hb. unfold script, lift. rewrite Ha, bind_inr, Hb. reflexivity. Qed.




Ltac no_calls :=
  simpl; repeat split; solve [ lia | contradiction | congruence ].

(** X2. A run of a script sends at most one request, and none unless the
    button was pressed on a submission that is not blank. The request
    carries the model typed in and two messages: the rubric prompt of the
    script as developer, then the submission as the user wrote it, blanks
    around it included. *)
Theorem script_sends_at_most_one_request :
  forall (v : variant) (s : session),
    let calls := transport_calls (trace (script v s)) in
    length calls <= 1
    /\ (calls <> [] -> button s = true /\ nonempty (strip (submission s)) = true)
    /\ (forall req, In req calls ->
          req_model req = model_input s
          /\ req_input req
             = [ {| role := "developer"; input_text := DEV_PROMPT v |};
                 {| role := "user"; input_text := submission s |} ]
          /\ nonempty (req_api_key req) = true).
Proof.
  intros v s calls.
  destruct (acquire_credential v s) as [e|[k env]] eqn:Ha.
  { assert (Hc : calls = []).
    { unfold calls, script, lift. rewrite Ha. reflexivity. }
    rewrite Hc. no_calls. }
  destruct (button s) eqn:Hb.
  2:{ assert (Hc : calls = []).
      { unfold calls. rewrite (script_not_pressed _ _ _ _ Ha Hb). reflexivity. }
      rewrite Hc. no_calls. }
  assert (Hc : calls
               = if nonempty (strip (submission s)) && negb (no_credential v env k)
                 then match OpenAI k env with
                      | inr key => [build_request v key (model_input s) (submission s)]
                      | inl _ => []
                      end
                 else []).
  { unfold calls. rewrite (script_pressed _ _ _ _ Ha Hb). apply run_handler_calls. }
  rewrite Hc. clear Hc calls.
  destruct (nonempty (strip (submission s))); simpl; [|no_calls].
  destruct (no_credential v env k) eqn:Hn; simpl; [no_calls|].
  destruct (guard_gives_client _ _ _ Hn) as (key & Hkey & Hne & _). rewrite Hkey.
  simpl. split; [lia|]. split; [auto|].
  intros req [<-|[]]. simpl. auto.
Qed.

(** X3. When the service raises, the handler shows the failure with the
    exception and stops there: one request was sent, nothing of a report is
    drawn, and the exception goes no further. *)
Theorem service_failure_reported :
  forall (v : variant) (environ : mapping) (api_key model user_text : string) (e : exn),
    nonempty (strip user_text) = true ->
    no_credential v environ api_key = false ->
    (forall key, OpenAI api_key environ = inr key ->
                 remote (build_request v key model user_text) = inl e) ->
    exists key,
      OpenAI api_key environ = inr key
      /\ run_handler v environ api_key model user_text
         = ([st_spinner "Evaluating...";
             responses_create (build_request v key model user_text);
             st_error ("Evaluation failed: " ++ exn_str e);
             st_exception e],
            inr tt).
Proof.
  intros v environ api_key model user_text e Ht Hc Hr.
  destruct (guard_gives_client _ _ _ Hc) as (key & Hkey & _).
  exists key. split; [exact Hkey|].
  apply (run_handler_failed _ _ _ _ _ _ _ Ht Hc Hkey (Hr _ Hkey)).
Qed.

Lemma script_calls_with_key v s api_key environ key :
  acquire_credential v s = inr (api_key, environ) ->
  button s = true ->
  nonempty (strip (submission s)) = true ->
  no_credential v environ api_key = false ->
  OpenAI api_key environ = inr key ->
  transport_calls (trace (script v s))
  = [build_request v key (model_input s) (submission s)].
Proof.
  intros Ha Hb Ht Hc Hk.
  rewrite (script_pressed _ _ _ _ Ha Hb), run_handler_calls, Ht, Hc, Hk. reflexivity.
Qed.

Lemma secrets_defined_file s k x : secrets s k = Some x -> secrets_file s <> None.
Proof. unfold secrets. destruct (secrets_file s); [discriminate | discriminate]. Qed.

Lemma acquire_lookup_defined s k :
  secrets s "OPENAI_API_KEY" = Some k ->
  acquire_credential evaluator_digital_disruption s
  = inr (k, setitem (environ0 s) "OPENAI_API_KEY" k).
Proof.
  intros Hs. pose proof (secrets_getitem_cases s "OPENAI_API_KEY") as Hitem.
  pose proof (secrets_defined_file _ _ _ Hs) as Hf.
  simpl. destruct (secrets_file s); [|contradiction]. rewrite Hs in Hitem.
  rewrite Hitem. reflexivity.
Qed.

Lemma acquire_get_with_file s :
  secrets_file s <> None ->
  acquire_credential evaluator_transformation_plan s
  = inr (let k := match secrets s "OPENAI_API_KEY" with
                  | Some x => x
                  | None => match environ0 s "OPENAI_API_KEY" with
                            | Some x => x
                            | None => ""
                            end
                  end in
         if nonempty k then k else key_input s,
         environ0 s).
Proof.
  intros Hf.
  pose proof (secrets_get_cases s "OPENAI_API_KEY"
                match environ0 s "OPENAI_API_KEY" with
                | Some k => k
                | None => ""
                end) as Hget.
  simpl. destruct (secrets_file s); [|contradiction]. rewrite Hget. reflexivity.
Qed.

(** X4. Which key a script calls with. The ecosystem and platform scripts
    use the key typed in the sidebar and, without one, the environment
    variable; they never read a secret. The digital-disruption script uses
    its secret, whatever the environment holds. The transformation-plan
    script, given a secrets file, uses its secret, else the environment
    variable when the secret is not defined in the file, and the key typed
    in only when neither gave a key. *)
Theorem credential_precedence :
  forall (s : session) (k : string),
    button s = true ->
    nonempty (strip (submission s)) = true ->
    nonempty k = true ->
    let sent v := transport_calls (trace (script v s)) in
    let request v := [build_request v k (model_input s) (submission s)] in
    (forall v, v = ecosystem_evaluator \/ v = platform_evaluator ->
       (key_input s = k -> sent v = request v)
       /\ (key_input s = "" -> environ0 s "OPENAI_API_KEY" = Some k ->
           sent v = request v))
    /\ (secrets s "OPENAI_API_KEY" = Some k ->
        sent evaluator_digital_disruption = request evaluator_digital_disruption
        /\ sent evaluator_transformation_plan = request evaluator_transformation_plan)
    /\ (secrets_file s <> None ->
        secrets s "OPENAI_API_KEY" = None -> environ0 s "OPENAI_API_KEY" = Some k ->
        sent evaluator_transformation_plan = request evaluator_transformation_plan)
    /\ (secrets s "OPENAI_API_KEY" = Some ""
        \/ (secrets_file s <> None
            /\ secrets s "OPENAI_API_KEY" = None
            /\ get_truthy (environ0 s) "OPENAI_API_KEY" = false) ->
        key_input s = k ->
        sent evaluator_transformation_plan = request evaluator_transformation_plan).
Proof.
  intros s k Hb Ht Hk sent request. unfold sent, request.
  assert (Hopen : forall env, OpenAI k env = inr k).
  { intros env. unfold OpenAI. rewrite Hk. reflexivity. }
  split; [|split; [|split]].
  - intros v Hv. split.
    + intros Hin.
      apply (script_calls_with_key v s k (environ0 s) k); auto.
      * destruct Hv as [-> | ->]; simpl; rewrite Hin; reflexivity.
      * destruct Hv as [-> | ->]; simpl; rewrite Hk; reflexivity.
    + intros Hin Henv.
      apply (script_calls_with_key v s "" (environ0 s) k); auto.
      * destruct Hv as [-> | ->]; simpl; rewrite Hin; reflexivity.
      * destruct Hv as [-> | ->]; simpl; unfold get_truthy; rewrite Henv, Hk;
          reflexivity.
      * unfold OpenAI. simpl. rewrite Henv. reflexivity.
  - intros Hs. split.
    + apply (script_calls_with_key _ s k (setitem (environ0 s) "OPENAI_API_KEY" k) k);
        auto.
      * apply acquire_lookup_defined. exact Hs.
      * simpl. rewrite Hk. reflexivity.
    + apply (script_calls_with_key _ s k (environ0 s) k); auto.
      * rewrite (acquire_get_with_file s (secrets_defined_file _ _ _ Hs)).
        rewrite Hs. cbv zeta. rewrite Hk. reflexivity.
      * simpl. rewrite Hk. reflexivity.
  - intros Hf Hs Henv.
    apply (script_calls_with_key _ s k (environ0 s) k); auto.
    + rewrite (acquire_get_with_file s Hf), Hs, Henv. cbv zeta. rewrite Hk.
      reflexivity.
    + simpl. rewrite Hk. reflexivity.
  - intros Hor Hin.
    apply (script_calls_with_key _ s k (environ0 s) k); auto.
    + destruct Hor as [Hs | (Hf & Hs & Henv)].
      * rewrite (acquire_get_with_file s (secrets_defined_file _ _ _ Hs)), Hs, Hin.
        reflexivity.
      * rewrite (acquire_get_with_file s Hf), Hs, Hin. unfold get_truthy in Henv.
        destruct (environ0 s "OPENAI_API_KEY") as [x|]; cbv zeta;
          [rewrite Henv|]; reflexivity.
    + simpl. rewrite Hk. reflexivity.
Qed.

(** X5. A secret that is defined and empty hides the environment variable:
    the digital-disruption script overwrites the variable with it, the
    transformation-plan script never looks at the variable once the secret
    exists. With no key typed in, both show the credential warning and send
    nothing, even when the environment holds a key. *)
Theorem empty_secret_hides_environment :
  forall s : session,
    secrets s "OPENAI_API_KEY" = Some "" ->
    button s = true ->
    nonempty (strip (submission s)) = true ->
    script evaluator_digital_disruption s
    = ([st_warning "Provide an OpenAI API key in the sidebar or set OPENAI_API_KEY."],
       inr tt)
    /\ (key_input s = "" ->
        script evaluator_transformation_plan s
        = ([st_warning
              "Provide an OpenAI API key in the sidebar, set OPENAI_API_KEY secret, or set OPENAI_API_KEY environment variable."],
           inr tt)).
Proof.
  intros s Hs Hb Ht. split.
  - rewrite (script_pressed _ s "" (setitem (environ0 s) "OPENAI_API_KEY" "")); auto.
    + apply run_handler_no_credential; [exact Ht | reflexivity].
    + apply acquire_lookup_defined. exact Hs.
  - intros Hin.
    rewrite (script_pressed _ s "" (environ0 s)); auto.
    + apply run_handler_no_credential; [exact Ht | reflexivity].
    + rewrite (acquire_get_with_file s (secrets_defined_file _ _ _ Hs)), Hs, Hin.
      reflexivity.
Qed.

(** ** More on the rendering *)

(** X6. A text that is valid JSON but no object (a list, a string, a
    number, [null]) is shown like a text that is no JSON at all: heading,
    warning, raw text. *)
Theorem non_object_payload_falls_back :
  forall (v : variant) (result : string) (data : pyval),
    json_loads result = Some data ->
    isinstance_dict data = false ->
    render_result v result
    = ([st_subheader "Result";
        st_warning "Could not parse the evaluation into sections. Showing compact text.";
        st_write (VStr result)],
       inr tt).
Proof.
  intros v result data H Hd. destruct (parts_nonempty v) as (p & ps & Hp).
  apply (render_result_aborted v result data [] AttributeError H).
  rewrite Hp. apply render_parts_not_dict. exact Hd.
Qed.

(** The fields a script reads from the payload. *)
Definition fields_read (v : variant) : list string :=
  "final_grade" :: "overall_comments" :: map fst (parts v).

Lemma render_part_agree d d' part :
  dict_lookup d (fst part) = dict_lookup d' (fst part) ->
  render_part (VDict d) part = render_part (VDict d') part.
Proof.
  destruct part as [key title]. cbn [fst]. intros H.
  rewrite !render_part_dict, H. reflexivity.
Qed.

Lemma render_parts_agree d d' ps :
  (forall part, In part ps -> dict_lookup d (fst part) = dict_lookup d' (fst part)) ->
  render_parts (VDict d) ps = render_parts (VDict d') ps.
Proof.
  induction ps as [|p ps IH]; intros H; [reflexivity|].
  rewrite !render_parts_cons, (render_part_agree d d' p), IH.
  - reflexivity.
  - intros part Hin. apply H. right. exact Hin.
  - apply H. left. reflexivity.
Qed.

(** Two reports are the same but for the raw text a fallback ends with. *)
Definition same_report (v : variant) (result result' : string) : Prop :=
  exists t,
    (render_result v result = (t, inr tt) /\ render_result v result' = (t, inr tt))
    \/ (render_result v result
        = ((t ++ [st_warning
                    "Could not parse the evaluation into sections. Showing compact text.";
                  st_write (VStr result)])%list,
           inr tt)
        /\ render_result v result'
           = ((t ++ [st_warning
                       "Could not parse the evaluation into sections. Showing compact text.";
                     st_write (VStr result')])%list,
              inr tt)).

Lemma render_result_agree v result result' d d' :
  json_loads result = Some (VDict d) ->
  json_loads result' = Some (VDict d') ->
  (forall k, In k (fields_read v) -> dict_lookup d k = dict_lookup d' k) ->
  same_report v result result'.
Proof.
  intros H H' Hagree.
  assert (Hparts : render_parts (VDict d) (parts v) = render_parts (VDict d') (parts v)).
  { apply render_parts_agree. intros part Hin. apply Hagree. right. right.
    apply in_map. exact Hin. }
  destruct (render_parts (VDict d) (parts v)) as [t [e|[]]] eqn:Hp.
  - exists (st_subheader "Result" :: t). right. split.
    + apply (render_result_aborted v result _ t e H Hp).
    + apply (render_result_aborted v result' _ t e H'). symmetry. exact Hparts.
  - eexists. left. split.
    + apply (render_result_complete v result d t H Hp).
    + rewrite (render_result_complete v result' d' t H' (eq_sym Hparts)).
      unfold lookup_default.
      rewrite (Hagree "final_grade"), (Hagree "overall_comments");
        [reflexivity | right; left; reflexivity | left; reflexivity].
Qed.

Lemma dict_lookup_filter (keep : string -> bool) d k :
  keep k = true ->
  dict_lookup (filter (fun kv => keep (fst kv)) d) k = dict_lookup d k.
Proof.
  intros Hk. induction d as [|[k' x] d IH]; [reflexivity|].
  simpl. destruct (keep k') eqn:Hk'; simpl.
  - rewrite IH. reflexivity.
  - destruct (String.eqb_spec k' k) as [->|_]; [congruence | exact IH].
Qed.

(** X7. Only the fields a script reads count: its own part keys,
    final_grade and overall_comments. Dropping every other field of the
    payload, the parts of another rubric among them, leaves the report as it
    was. *)
Theorem other_fields_ignored :
  forall (v : variant) (result result' : string) (d : list (string * pyval)),
    json_loads result = Some (VDict d) ->
    json_loads result'
    = Some (VDict (filter (fun kv => existsb (String.eqb (fst kv)) (fields_read v)) d)) ->
    same_report v result result'.
Proof.
  intros v result result' d H H'.
  apply (render_result_agree v result result' _ _ H H').
  intros k Hin. symmetry.
  apply (dict_lookup_filter (fun k' => existsb (String.eqb k') (fields_read v))).
  apply existsb_exists. exists k. split; [exact Hin | apply String.eqb_refl].
Qed.

Lemma dict_lookup_permutation d d' k :
  Permutation d d' -> NoDup (map fst d) -> dict_lookup d k = dict_lookup d' k.
Proof.
  induction 1 as [|[k1 x1] l l' Hperm IH|[k1 x1] [k2 x2] l|l l' l'' H1 IH1 H2 IH2];
    intros Hnd.
  - reflexivity.
  - simpl. inversion Hnd; subst. rewrite IH; auto.
  - simpl. inversion Hnd as [|? ? Hnotin _]; subst.
    destruct (String.eqb_spec k1 k) as [->|]; destruct (String.eqb_spec k2 k) as [->|];
      try reflexivity.
    exfalso. apply Hnotin. left. reflexivity.
  - rewrite IH1, IH2; auto.
    apply (Permutation_NoDup (Permutation_map fst H1)). exact Hnd.
Qed.

(** X8. The order of the fields of the payload does not matter: for an
    object with distinct keys, any reordering of its top-level fields gives
    the same report. The sections come in the script's order, not the
    payload's. *)
Theorem field_order_irrelevant :
  forall (v : variant) (result result' : string) (d d' : list (string * pyval)),
    json_loads result = Some (VDict d) ->
    json_loads result' = Some (VDict d') ->
    NoDup (map fst d) ->
    Permutation d d' ->
    same_report v result result'.
Proof.
  intros v result result' d d' H H' Hnd Hperm.
  apply (render_result_agree v result result' _ _ H H').
  intros k _. apply dict_lookup_permutation; assumption.
Qed.

Lemma lower_length s : String.length (lower s) = String.length s.
Proof. induction s; simpl; congruence. Qed.

Lemma py_str_not_a_grade x :
  match x with VStr _ | VFloat _ => False | _ => True end ->
  String.eqb (lower (py_str x)) "pass" = false
  /\ String.eqb (lower (py_str x)) "fail" = false.
Proof.
  destruct x; simpl; try contradiction; intros _.
  - split; reflexivity.
  - destruct b; split; reflexivity.
  - destruct n as [|p|p]; simpl.
    + split; reflexivity.
    + unfold NilZero.string_of_uint. destruct (Pos.to_uint p); simpl; split; reflexivity.
    + split; reflexivity.
  - split; reflexivity.
  - split; reflexivity.
Qed.

(** X9. A final grade that is not the word is shown as it is, neutrally:
    [null], a boolean, an integer, a list or a mapping is printed the way
    Python prints it ("None", "True", ...), and a string of any length but
    four ("passed", "pass " with a blank, the empty string) is printed
    unchanged; neither is ever taken for PASS or FAIL. *)
Theorem unrecognised_grade_shown_raw :
  forall d : list (string * pyval),
    (forall x, dict_lookup d "final_grade" = Some x ->
       match x with VStr _ | VFloat _ => False | _ => True end ->
       final_grade_banner (VDict d)
       = ([st_info ("Final Grade: " ++ py_repr x)], inr tt))
    /\ (forall s, dict_lookup d "final_grade" = Some (VStr s) ->
          String.length s <> 4 ->
          final_grade_banner (VDict d) = ([st_info ("Final Grade: " ++ s)], inr tt)).
Proof.
  intros d. split.
  - intros x Hx Hkind. rewrite final_grade_banner_dict.
    unfold grade_indicator, lookup_default. rewrite Hx.
    destruct (py_str_not_a_grade x Hkind) as [-> ->].
    destruct x; try reflexivity; contradiction.
  - intros s Hs Hlen. rewrite final_grade_banner_dict.
    unfold grade_indicator, lookup_default. rewrite Hs. simpl py_str.
    assert (Hp : String.eqb (lower s) "pass" = false).
    { apply String.eqb_neq. intros E. apply Hlen. rewrite <- lower_length, E. reflexivity. }
    assert (Hf : String.eqb (lower s) "fail" = false).
    { apply String.eqb_neq. intros E. apply Hlen. rewrite <- lower_length, E. reflexivity. }
    rewrite Hp, Hf. reflexivity.
Qed.

(** ** More on the extraction *)

(** An output item whose first "output_text" part holds nothing true: an
    empty text, or [None]. *)
Definition blank_first_text (out : output_item) : Prop :=
  exists cs1 c cs2 x,
    out_content out = has (cs1 ++ c :: cs2)%list
    /\ Forall other_segment cs1
    /\ seg_type c = Some (VStr "output_text")
    /\ seg_text c = Some x
    /\ truthy x = false.

(** An output item the scan goes past. *)
Definition passed_over (out : output_item) : Prop :=
  no_output_text out \/ blank_first_text out.

(** An output item at which the scan raises: its [content] is [None], or
    the scan meets a part without [type], or an "output_text" part without
    [text]. *)
Definition breaks_scan (out : output_item) : Prop :=
  out_content out = is_None
  \/ exists cs1 c cs2,
       out_content out = has (cs1 ++ c :: cs2)%list
       /\ Forall other_segment cs1
       /\ (seg_type c = None
           \/ (seg_type c = Some (VStr "output_text") /\ seg_text c = None)).

Lemma scan_content_none cs : Forall other_segment cs -> scan_content cs = inr None.
Proof.
  intros H. rewrite <- (app_nil_r cs). rewrite (scan_content_skip _ [] H). reflexivity.
Qed.

Lemma scan_output_passed_over pre rest t :
  truthy t = false -> Forall passed_over pre ->
  exists t', truthy t' = false /\ scan_output (pre ++ rest)%list t = scan_output rest t'.
Proof.
  intros Ht Hall. revert t Ht.
  induction Hall as [|out pre Hout _ IH]; intros t Ht; [exists t; auto|].
  simpl. destruct Hout as [[Habs | (cs & Hcs & Hoth)] | (cs1 & c & cs2 & x & Hc & Hoth & Hty & Htx & Hx)].
  - rewrite Habs, Ht. apply IH. exact Ht.
  - rewrite Hcs, (scan_content_none _ Hoth), Ht. apply IH. exact Ht.
  - rewrite Hc, (scan_content_skip _ _ Hoth). simpl. rewrite Hty, Htx. simpl.
    rewrite Hx. apply IH. exact Hx.
Qed.

Lemma extract_text_scanned r s :
  scan_output (output_or_empty r) VNone = inr (VStr s) -> s <> "" ->
  extract_text r = s.
Proof.
  intros H Hs. unfold extract_text, scan_response. rewrite H.
  simpl. rewrite (nonempty_true _ Hs). simpl. rewrite (nonempty_true _ Hs). reflexivity.
Qed.

(** What the fallback line of [call_agent] gives by itself:
    [getattr(response, "output_text", None) or getattr(response, "content", None)],
    returned when it is a string, the serialized response otherwise. *)
Definition from_fields (r : response) : string :=
  match py_or (getattr_or_None (output_text r)) (getattr_or_None (content r)) with
  | VStr s => s
  | _ => json_dumps r
  end.

Lemma extract_text_scan_raised r e :
  scan_output (output_or_empty r) VNone = inl e ->
  extract_text r = from_fields r.
Proof.
  intros H. unfold extract_text, from_fields, scan_response. rewrite H. reflexivity.
Qed.

(** X10. The scan of the output list does not stop at an "output_text"
    part whose text is empty or [None]: it goes on with the next item, and
    the text returned is the first non-empty one among the first
    "output_text" parts of the items. The later parts of an item are never
    read. *)
Theorem scan_takes_first_true_text :
  forall (r : response) pre out post cs1 c cs2 (s : string),
    output r = has (pre ++ out :: post)%list ->
    Forall passed_over pre ->
    out_content out = has (cs1 ++ c :: cs2)%list ->
    Forall other_segment cs1 ->
    seg_type c = Some (VStr "output_text") ->
    seg_text c = Some (VStr s) ->
    s <> "" ->
    extract_text r = s.
Proof.
  intros r pre out post cs1 c cs2 s Hout Hpre Hc Hoth Hty Htx Hs.
  apply extract_text_scanned; [|exact Hs].
  unfold output_or_empty. rewrite Hout.
  destruct (scan_output_passed_over pre (out :: post) VNone eq_refl Hpre)
    as (t' & Ht' & ->).
  simpl. rewrite Hc, (scan_content_skip _ _ Hoth). simpl. rewrite Hty, Htx. simpl.
  rewrite (nonempty_true _ Hs). reflexivity.
Qed.

(** X11. When the scan raises before it has found a text, what it may
    have seen is dropped and the items after the faulty one are not looked
    at, a message with a good text among them: the text returned is the one
    the fields [output_text] and [content] give. With a non-empty
    [output_text] field, as the SDK computes it, that field is the text. *)
Theorem scan_error_falls_back_to_fields :
  forall (r : response) pre out post,
    output r = has (pre ++ out :: post)%list ->
    Forall passed_over pre ->
    breaks_scan out ->
    extract_text r = from_fields r
    /\ (forall s, output_text r = Some (VStr s) -> s <> "" -> extract_text r = s).
Proof.
  intros r pre out post Hout Hpre Hbreak.
  assert (Hraise : exists e, scan_output (output_or_empty r) VNone = inl e).
  { unfold output_or_empty. rewrite Hout.
    destruct (scan_output_passed_over pre (out :: post) VNone eq_refl Hpre)
      as (t' & Ht' & ->).
    simpl. destruct Hbreak as [Hnone | (cs1 & c & cs2 & Hc & Hoth & Hbad)].
    - rewrite Hnone. eauto.
    - rewrite Hc, (scan_content_skip _ _ Hoth). simpl.
      destruct Hbad as [Hty | [Hty Htx]].
      + rewrite Hty. eauto.
      + rewrite Hty, Htx. simpl. eauto. }
  destruct Hraise as (e & He).
  pose proof (extract_text_scan_raised r e He) as Hfields.
  split; [exact Hfields|].
  intros s Hot Hs. rewrite Hfields. unfold from_fields, py_or.
  rewrite Hot. simpl. rewrite (nonempty_true _ Hs). reflexivity.
Qed.

(** The text [t] is held by an "output_text" part of one of the items. *)
Definition text_part_of (outs : list output_item) (t : pyval) : Prop :=
  exists out cs c,
    In out outs /\ out_content out = has cs /\ In c cs
    /\ seg_type c = Some (VStr "output_text") /\ seg_text c = Some t.

Lemma py_eq_str_true t s : py_eq_str t s = true -> t = VStr s.
Proof.
  destruct t; simpl; try discriminate. intros H. apply String.eqb_eq in H. congruence.
Qed.

Lemma scan_content_found cs x :
  scan_content cs = inr (Some x) ->
  exists c, In c cs /\ seg_type c = Some (VStr "output_text") /\ seg_text c = Some x.
Proof.
  induction cs as [|c cs IH]; simpl; [discriminate|].
  destruct (seg_type c) as [t|] eqn:Hty; [|discriminate].
  destruct (py_eq_str t "output_text") eqn:Heq.
  - destruct (seg_text c) as [y|] eqn:Htx; [|discriminate].
    intros E. injection E as ->. exists c. apply py_eq_str_true in Heq. subst t. auto.
  - intros H. destruct (IH H) as (c' & Hin & Hc'). exists c'. auto.
Qed.

Lemma scan_output_origin outs t0 t :
  scan_output outs t0 = inr t -> t = t0 \/ text_part_of outs t.
Proof.
  revert t0. induction outs as [|out outs IH]; intros t0; simpl.
  - intros E. injection E as ->. auto.
  - assert (Hlater : forall t1, scan_output outs t1 = inr t ->
              t = t1 \/ text_part_of (out :: outs) t).
    { intros t1 H. destruct (IH _ H) as [-> | (o & cs & c & Hin & Hrest)]; [auto|].
      right. exists o, cs, c. split; [right; exact Hin | exact Hrest]. }
    destruct (out_content out) as [| |cs] eqn:Hc; try discriminate.
    + destruct (truthy t0); [intros E; injection E as ->; auto | apply Hlater].
    + destruct (scan_content cs) as [e|[x|]] eqn:Hs; try discriminate.
      * assert (Hx : text_part_of (out :: outs) x).
        { destruct (scan_content_found _ _ Hs) as (c & Hin & Hty & Htx).
          exists out, cs, c. repeat split; auto. left. reflexivity. }
        destruct (truthy x).
        -- intros E. injection E as ->. auto.
        -- intros H. destruct (Hlater _ H) as [-> | Hp]; auto.
      * destruct (truthy t0); [intros E; injection E as ->; auto | apply Hlater].
Qed.

Lemma extract_text_scan_blank r t :
  scan_output (output_or_empty r) VNone = inr t -> truthy t = false ->
  extract_text r = from_fields r.
Proof.
  intros H Ht. unfold extract_text, from_fields, scan_response, py_or. rewrite H, Ht.
  destruct (output_text r) as [ot|]; simpl.
  - destruct (truthy ot) eqn:Hot; simpl; rewrite ?Hot; reflexivity.
  - rewrite Ht. reflexivity.
Qed.

Lemma from_fields_origin r :
  from_fields r = json_dumps r
  \/ output_text r = Some (VStr (from_fields r))
  \/ content r = Some (VStr (from_fields r)).
Proof.
  unfold from_fields, py_or.
  destruct (output_text r) as [ot|]; simpl.
  - destruct (truthy ot).
    + destruct ot; auto.
    + destruct (content r) as [[]|]; simpl; auto.
  - destruct (content r) as [[]|]; simpl; auto.
Qed.

(** X12. The text returned is never made up: it is the serialized
    response, or the string held by the response's [output_text], or by its
    [content], or by an "output_text" part of one of its output items. *)
Theorem extract_text_from_response :
  forall r : response,
    extract_text r = json_dumps r
    \/ output_text r = Some (VStr (extract_text r))
    \/ content r = Some (VStr (extract_text r))
    \/ text_part_of (output_or_empty r) (VStr (extract_text r)).
Proof.
  intros r.
  assert (Hfields : extract_text r = from_fields r ->
            extract_text r = json_dumps r
            \/ output_text r = Some (VStr (extract_text r))
            \/ content r = Some (VStr (extract_text r))
            \/ text_part_of (output_or_empty r) (VStr (extract_text r))).
  { intros ->. destruct (from_fields_origin r) as [H | [H | H]]; auto. }
  destruct (scan_output (output_or_empty r) VNone) as [e|t] eqn:Hs.
  - apply Hfields. apply (extract_text_scan_raised r e Hs).
  - destruct (truthy t) eqn:Ht.
    + assert (E : extract_text r = match t with VStr s => s | _ => json_dumps r end).
      { unfold extract_text, scan_response. rewrite Hs, Ht. simpl. rewrite Ht.
        reflexivity. }
      destruct t; auto.
      destruct (scan_output_origin _ _ _ Hs) as [E' | Hp]; [discriminate E'|].
      rewrite E. auto.
    + apply Hfields. apply (extract_text_scan_blank r t Hs Ht).
Qed.

(** X13. A true value that is no string ends the chain like a text does,
    and the later fields are not read: when the scan stops at such a value,
    or finds nothing and [output_text] holds one, the serialized response
    is returned, even if a later field holds a string. *)
Theorem true_non_string_ends_chain :
  forall (r : response) (t : pyval),
    truthy t = true ->
    isinstance_str t = false ->
    (scan_found r = Some t -> extract_text r = json_dumps r)
    /\ (scan_found r = None -> output_text r = Some t -> extract_text r = json_dumps r).
Proof.
  intros r t Ht Hs. unfold scan_found. split.
  - destruct (scan_output (output_or_empty r) VNone) as [e|t'] eqn:Hscan; [discriminate|].
    destruct (truthy t') eqn:Ht'; [|discriminate]. intros E. injection E as ->.
    unfold extract_text, scan_response. rewrite Hscan, Ht. simpl. rewrite Ht.
    destruct t; try reflexivity. discriminate Hs.
  - intros Hnone Hot.
    assert (E : extract_text r = from_fields r).
    { destruct (scan_output (output_or_empty r) VNone) as [e|t'] eqn:Hscan.
      - apply (extract_text_scan_raised r e Hscan).
      - destruct (truthy t') eqn:Ht'; [discriminate Hnone|].
        apply (extract_text_scan_blank r t' Hscan Ht'). }
    rewrite E. unfold from_fields, py_or. rewrite Hot. simpl. rewrite Ht.
    destruct t; try reflexivity. discriminate Hs.
Qed.

(** ** The blank test *)

Lemma string_rev_involutive s : string_rev (string_rev s) = s.
Proof.
  induction s as [|c s IH]; [reflexivity|].
  simpl. rewrite string_rev_app, IH. reflexivity.
Qed.

Lemma join_app l1 l2 : join (l1 ++ l2)%list = join l1 ++ join l2.
Proof.
  unfold join. induction l1 as [|x l1 IH]; [reflexivity|].
  simpl. rewrite IH, string_app_assoc. reflexivity.
Qed.

Lemma string_rev_join_list l : string_rev (join l) = join (map string_rev (rev l)).
Proof.
  induction l as [|x l IH]; [reflexivity|].
  simpl. rewrite string_rev_app, IH, map_app, join_app. simpl.
  rewrite string_app_nil_r. reflexivity.
Qed.

Lemma drop_prefix_some p s r : drop_prefix p s = Some r -> s = p ++ r.
Proof.
  revert s. induction p as [|a p IH]; intros s; simpl.
  - intros E. injection E as ->. reflexivity.
  - destruct s as [|b s]; [discriminate|].
    destruct (Ascii.eqb_spec a b) as [->|]; [|discriminate].
    intros H. rewrite (IH _ H). reflexivity.
Qed.

Lemma drop_any_some tokens s r :
  drop_any tokens s = Some r -> exists t, In t tokens /\ s = t ++ r.
Proof.
  induction tokens as [|t ts IH]; simpl; [discriminate|].
  destruct (drop_prefix t s) as [r'|] eqn:Hd.
  - intros E. injection E as ->. exists t. split; [auto | apply drop_prefix_some; exact Hd].
  - intros H. destruct (IH H) as (t' & Hin & Hs). exists t'. auto.
Qed.

(** What [lstrip_tokens] removes is a run of tokens. *)
Lemma lstrip_tokens_removed fuel tokens s :
  exists ts,
    Forall (fun t => In t tokens) ts
    /\ s = join ts ++ lstrip_tokens fuel tokens s.
Proof.
  revert s. induction fuel as [|fuel IH]; intros s; simpl.
  - exists []. split; [constructor | reflexivity].
  - destruct (drop_any tokens s) as [r|] eqn:Hd.
    + destruct (drop_any_some _ _ _ Hd) as (t & Hin & ->).
      destruct (IH r) as (ts & Hall & Hr).
      exists (t :: ts). split; [constructor; assumption|].
      change (join (t :: ts)) with (t ++ join ts).
      rewrite string_app_assoc. f_equal. exact Hr.
    + exists []. split; [constructor | reflexivity].
Qed.

Lemma tokens_code_points (f : N -> string) ts :
  Forall (fun t => In t (map f whitespace_code_points)) ts ->
  exists cps, Forall (fun cp => In cp whitespace_code_points) cps /\ ts = map f cps.
Proof.
  induction 1 as [|t ts Ht _ (cps & Hall & ->)].
  - exists []. split; [constructor | reflexivity].
  - apply in_map_iff in Ht as (cp & <- & Hcp).
    exists (cp :: cps). split; [constructor; assumption | reflexivity].
Qed.

Lemma strip_empty_whitespace_only s : strip s = "" -> whitespace_only s.
Proof.
  unfold strip, lstrip, rstrip. intros H.
  set (tail := lstrip_tokens (String.length s)
                 (map (fun cp => string_rev (utf8 cp)) whitespace_code_points)
                 (string_rev s)) in *.
  destruct (lstrip_tokens_removed (String.length (string_rev tail))
              (map utf8 whitespace_code_points) (string_rev tail))
    as (ts1 & Hall1 & Hhead).
  rewrite H, string_app_nil_r in Hhead.
  destruct (lstrip_tokens_removed (String.length s)
              (map (fun cp => string_rev (utf8 cp)) whitespace_code_points)
              (string_rev s))
    as (ts2 & Hall2 & Htail).
  fold tail in Htail.
  destruct (tokens_code_points _ _ Hall1) as (cps1 & Hcps1 & ->).
  destruct (tokens_code_points _ _ Hall2) as (cps2 & Hcps2 & ->).
  exists (cps1 ++ rev cps2)%list. split.
  - apply Forall_app. split; [exact Hcps1 | apply Forall_rev; exact Hcps2].
  - rewrite <- (string_rev_involutive s), Htail, string_rev_app, Hhead.
    rewrite string_rev_join_list, map_app, join_app.
    f_equal. f_equal. rewrite <- map_rev, map_map.
    apply map_ext. intros cp. apply string_rev_involutive.
Qed.

Lemma nonempty_false s : nonempty s = false -> s = "".
Proof. destruct s; [reflexivity | discriminate]. Qed.

(** X14. The blank test is exact: [strip] leaves nothing of a text exactly
    when the text is made of white space only (the empty text included),
    counting the white space beyond ASCII, such as the no-break space. So
    the handler answers with the request to paste a submission for those
    texts and for no other. *)
Theorem blank_test_exact :
  forall user_text : string,
    (strip user_text = "" <-> whitespace_only user_text)
    /\ (forall v environ api_key model,
          run_handler v environ api_key model user_text
          = ([st_warning "Please paste your submission text before evaluating."], inr tt)
          <-> whitespace_only user_text).
Proof.
  intros user_text.
  assert (Hiff : strip user_text = "" <-> whitespace_only user_text).
  { split; [apply strip_empty_whitespace_only | apply strip_whitespace_only]. }
  split; [exact Hiff|].
  intros v environ api_key model. split.
  - intros Hrun. apply Hiff.
    destruct (nonempty (strip user_text)) eqn:Ht; [|apply nonempty_false; exact Ht].
    exfalso.
    destruct (no_credential v environ api_key) eqn:Hc.
    + rewrite (run_handler_no_credential _ _ _ _ _ Ht Hc) in Hrun.
      destruct v; discriminate Hrun.
    + destruct (guard_gives_client _ _ _ Hc) as (key & Hkey & _).
      destruct (remote (build_request v key model user_text)) as [e|r] eqn:Hr.
      * rewrite (run_handler_failed _ _ _ _ _ _ _ Ht Hc Hkey Hr) in Hrun.
        discriminate Hrun.
      * rewrite (run_handler_answered _ _ _ _ _ _ _ Ht Hc Hkey Hr) in Hrun.
        discriminate Hrun.
  - intros Hws. apply blank_submission_handler. apply Hiff. exact Hws.
Qed.

(** ** Shape of a report, and a whole run *)

Lemma grade_indicator_banner raw : is_grade_banner (grade_indicator raw) = true.
Proof.
  unfold grade_indicator.
  destruct (String.eqb _ "pass"); [|destruct (String.eqb _ "fail")]; reflexivity.
Qed.

(** X15. A report has one of two shapes, whatever text came back. Either
    it is structured: the heading, sections and cards, one grade banner,
    then the comments or nothing. Or it is a fallback: the heading, the
    sections and cards drawn before the failure, then the warning and the
    raw text. So PASS and FAIL never show together, and a grade never shows
    beside the warning. *)
Theorem report_structured_or_fallback :
  forall (v : variant) (result : string),
    exists drawn,
      Forall part_event drawn
      /\ ((exists banner rest,
             is_grade_banner banner = true
             /\ (rest = []
                 \/ exists comments,
                      rest = [st_markdown "### Overall Comments"; st_write comments])
             /\ render_result v result
                = (st_subheader "Result" :: (drawn ++ banner :: rest)%list, inr tt))
          \/ render_result v result
             = (st_subheader "Result"
                  :: (drawn
                        ++ [st_warning
                              "Could not parse the evaluation into sections. Showing compact text.";
                            st_write (VStr result)])%list,
                inr tt)).
Proof.
  intros v result. destruct (json_loads result) as [data|] eqn:H.
  - destruct (render_result_cases v result data H) as (t & Hev & [Hc | [_ Ha]]).
    + destruct Hc as (d & _ & _ & _ & Hr). exists t. split; [exact Hev|]. left.
      exists (grade_indicator (lookup_default d "final_grade" (VStr ""))),
             (comments_section (lookup_default d "overall_comments" (VStr ""))).
      split; [apply grade_indicator_banner|]. split; [|exact Hr].
      unfold comments_section. destruct (truthy _); eauto.
    + exists t. split; [exact Hev|]. right. exact Ha.
  - exists []. split; [constructor|]. right. apply render_result_invalid. exact H.
Qed.

(** X16. A whole run that goes through: once the credential lines have
    given a key the test accepts, the button is pressed on a text that is
    not blank and the service answers, the script shows the spinner, sends
    its one request and renders the text extracted from the answer, and
    nothing else. *)
Theorem script_renders_answer :
  forall (v : variant) (s : session) (api_key : string) (environ : mapping)
         (r : response),
    acquire_credential v s = inr (api_key, environ) ->
    button s = true ->
    nonempty (strip (submission s)) = true ->
    no_credential v environ api_key = false ->
    (forall key, OpenAI api_key environ = inr key ->
                 remote (build_request v key (model_input s) (submission s)) = inr r) ->
    exists key,
      OpenAI api_key environ = inr key
      /\ script v s
         = (st_spinner "Evaluating..."
              :: responses_create (build_request v key (model_input s) (submission s))
              :: trace (render_result v (extract_text r)),
            inr tt).
Proof.
  intros v s api_key environ r Ha Hb Ht Hc Hr.
  destruct (guard_gives_client _ _ _ Hc) as (key & Hkey & _).
  exists key. split; [exact Hkey|].
  rewrite (script_pressed _ _ _ _ Ha Hb).
  apply (run_handler_answered _ _ _ _ _ _ _ Ht Hc Hkey (Hr _ Hkey)).
Qed.

End Evaluators.

(** ** Runs on examples

    The parameters are given values to run the scripts: a printer for the
    values, a decoder that knows the texts of the examples, and a stubbed
    remote service. *)

Definition sample_float_repr (f : spec_float) : string :=
  match f with
  | S754_zero false => "0.0"
  | S754_zero true => "-0.0"
  | S754_infinity false => "inf"
  | S754_infinity true => "-inf"
  | S754_nan => "nan"
  | S754_finite _ _ _ => "1.0"
  end.

(** [repr] of a string with no quote and nothing to escape. *)
Definition plain_str_repr (s : string) : string := "'" ++ s ++ "'".

Definition dq : string := String "034"%char "".
Definition quoted (s : string) : string := dq ++ s ++ dq.

Definition decode_table (table : list (string * pyval)) (text : string) : option pyval :=
  match find (fun entry => String.eqb (fst entry) text) table with
  | Some entry => Some (snd entry)
  | None => None
  end.

(** The payload of the specification's example scenario. *)
Definition scenario_text : string :=
  "{" ++ quoted "part1" ++ ":{" ++ quoted "Q1" ++ ":{"
      ++ quoted "value" ++ ":" ++ quoted "yes" ++ ","
      ++ quoted "explanation" ++ ":" ++ quoted "ok" ++ "}}, "
      ++ quoted "final_grade" ++ ":" ++ quoted "fail" ++ ","
      ++ quoted "overall_comments" ++ ":" ++ quoted "" ++ "}".

Definition scenario_payload : list (string * pyval) :=
  [("part1", VDict [("Q1", VDict [("value", VStr "yes"); ("explanation", VStr "ok")])]);
   ("final_grade", VStr "fail");
   ("overall_comments", VStr "")].

(** Every criterion "no", and yet a "pass". *)
Definition all_no_pass_text : string :=
  "{" ++ quoted "part2_mve" ++ ":{" ++ quoted "MVE defined" ++ ":{"
      ++ quoted "value" ++ ":" ++ quoted "no" ++ "}}, "
      ++ quoted "final_grade" ++ ":" ++ quoted "pass" ++ "}".

Definition all_no_pass_payload : list (string * pyval) :=
  [("part2_mve", VDict [("MVE defined", VDict [("value", VStr "no")])]);
   ("final_grade", VStr "pass")].

(** A part whose criterion is a bare string. *)
Definition bare_criterion_text : string :=
  "{" ++ quoted "part1_complementors_intermediaries" ++ ":{"
      ++ quoted "Q1" ++ ":" ++ quoted "yes" ++ "}, "
      ++ quoted "final_grade" ++ ":" ++ quoted "pass" ++ ","
      ++ quoted "overall_comments" ++ ":" ++ quoted "fine" ++ "}".

Definition bare_criterion_payload : list (string * pyval) :=
  [("part1_complementors_intermediaries", VDict [("Q1", VStr "yes")]);
   ("final_grade", VStr "pass");
   ("overall_comments", VStr "fine")].

(** A first part with two criteria, a second part that is no mapping, no
    third part. *)
Definition partial_text : string :=
  "{" ++ quoted "part1_interactions_actors" ++ ":{"
      ++ quoted "A" ++ ":{" ++ quoted "value" ++ ":" ++ quoted "Yes" ++ ","
      ++ quoted "explanation" ++ ":" ++ quoted "clear" ++ "},"
      ++ quoted "B" ++ ":{" ++ quoted "explanation" ++ ":" ++ quoted "missing" ++ "}}, "
      ++ quoted "part2_chicken_egg" ++ ":" ++ quoted "n/a" ++ ","
      ++ quoted "final_grade" ++ ":" ++ quoted "fail" ++ ","
      ++ quoted "overall_comments" ++ ":" ++ quoted "Rework part 2." ++ "}".

Definition partial_payload : list (string * pyval) :=
  [("part1_interactions_actors",
    VDict [("A", VDict [("value", VStr "Yes"); ("explanation", VStr "clear")]);
           ("B", VDict [("explanation", VStr "missing")])]);
   ("part2_chicken_egg", VStr "n/a");
   ("final_grade", VStr "fail");
   ("overall_comments", VStr "Rework part 2.")].

Definition sample_loads : string -> option pyval :=
  decode_table
    [(scenario_text, VDict scenario_payload);
     (all_no_pass_text, VDict all_no_pass_payload);
     (bare_criterion_text, VDict bare_criterion_payload);
     (partial_text, VDict partial_payload)].

(** What a reasoning model answers: a reasoning item whose [content] is
    [None], then the message; the SDK's [output_text] joins the texts. *)
Definition reasoning_response : response :=
  {| output :=
       has [ {| out_content := is_None |};
             {| out_content :=
                  has [ {| seg_type := Some (VStr "output_text");
                           seg_text := Some (VStr scenario_text) |} ] |} ];
     output_text := Some (VStr scenario_text);
     content := None |}.

Definition sample_prompt (v : variant) : string := "# Role and Objective".
Definition stub_remote (req : request) : exn + response := inr reasoning_response.
Definition stub_dumps (r : response) : string := "{}".
Definition sample_exn_str (e : exn) : string :=
  match e with
  | AttributeError => "AttributeError"
  | TypeError => "TypeError"
  | KeyError k => plain_str_repr k
  | JSONDecodeError => "Expecting value"
  | StreamlitSecretNotFoundError => "No secrets found."
  | OpenAIError msg => msg
  end.

Abbreviation sample_render_result :=
  (render_result sample_float_repr plain_str_repr sample_loads).
Abbreviation sample_run_handler :=
  (run_handler sample_float_repr plain_str_repr sample_loads sample_prompt
     stub_remote stub_dumps sample_exn_str).
Abbreviation sample_script :=
  (script sample_float_repr plain_str_repr sample_loads sample_prompt
     stub_remote stub_dumps sample_exn_str).

Definition no_entries : mapping := fun _ => None.

(** A run with a secrets file that defines nothing, nothing else configured,
    and a submission typed in. *)
Definition bare_session : session :=
  {| secrets_file := Some no_entries;
     environ0 := no_entries;
     key_input := "";
     model_input := "gpt-5-nano";
     submission := "Our platform connects growers and buyers.";
     button := true |}.

(** The same with the secret defined and empty. *)
Definition empty_secret_session : session :=
  {| secrets_file := Some (setitem no_entries "OPENAI_API_KEY" "");
     environ0 := no_entries;
     key_input := "";
     model_input := "gpt-5-nano";
     submission := "Our platform connects growers and buyers.";
     button := true |}.

Lemma final_grade_shown_verbatim_run :
  In (st_success "Final Grade: PASS")
     (trace (sample_render_result ecosystem_evaluator all_no_pass_text))
  /\ (forall body,
        ~ In (st_error body)
             (trace (sample_render_result ecosystem_evaluator all_no_pass_text))).
Proof.
  destruct (final_grade_shown_verbatim sample_float_repr plain_str_repr sample_loads
              ecosystem_evaluator all_no_pass_text (VDict all_no_pass_payload) eq_refl)
    as (_ & _ & _ & Hpass).
  destruct (Hpass all_no_pass_payload "pass" eq_refl eq_refl eq_refl) as [Hnever Hshown].
  split; [apply Hshown; reflexivity | exact Hnever].
Defined.

Lemma final_grade_indicator_in_report_run :
  filter is_grade_banner (trace (sample_render_result platform_evaluator partial_text))
  = [st_error "Final Grade: FAIL"].
Proof.
  destruct (proj1 (final_grade_indicator_in_report sample_float_repr plain_str_repr
                     sample_loads)
              platform_evaluator partial_text partial_payload eq_refl eq_refl)
    as (ev & _ & Hone & _ & Hfail & _).
  rewrite Hone, (Hfail eq_refl). reflexivity.
Defined.

(** C2 fails as worded: this payload carries "pass" and its report shows no
    success indicator. *)
Lemma pass_grade_not_rendered :
  ~ overall_grade_rendered sample_float_repr plain_str_repr bare_criterion_payload
      (trace (sample_render_result ecosystem_evaluator bare_criterion_text)).
Proof.
  intros (Hpass & _). destruct (Hpass eq_refl) as (body & Hin).
  vm_compute in Hin.
  repeat (destruct Hin as [Hin | Hin]; [discriminate Hin|]). exact Hin.
Qed.

Lemma invalid_json_shown_raw_run :
  sample_render_result platform_evaluator "I could not grade this submission."
  = ([st_subheader "Result";
      st_warning "Could not parse the evaluation into sections. Showing compact text.";
      st_write (VStr "I could not grade this submission.")],
     inr tt).
Proof.
  exact (invalid_json_shown_raw sample_float_repr plain_str_repr sample_loads
           platform_evaluator "I could not grade this submission." eq_refl).
Defined.

Lemma parts_rendered_or_skipped_run :
  sample_render_result platform_evaluator partial_text
  = ([st_subheader "Result";
      st_section "Part 1 — Core Interactions and Actors";
      st_item "✅" "A" "#0f766e" "clear";
      st_item "❌" "B" "#b91c1c" "missing";
      st_error "Final Grade: FAIL";
      st_markdown "### Overall Comments";
      st_write (VStr "Rework part 2.")],
     inr tt).
Proof.
  exact (proj1 (parts_rendered_or_skipped sample_float_repr plain_str_repr sample_loads
                  platform_evaluator partial_text partial_payload eq_refl eq_refl)).
Defined.

(** C4 fails as worded: the part of this payload is a mapping, and its
    criterion gets no card. *)
Lemma mapping_part_not_rendered :
  ~ every_mapping_part_rendered ecosystem_evaluator bare_criterion_payload
      (trace (sample_render_result ecosystem_evaluator bare_criterion_text)).
Proof.
  intros H.
  destruct (H "part1_complementors_intermediaries"
              "Part 1 — Core Complementors and Intermediaries"
              [("Q1", VStr "yes")] (or_introl eq_refl) eq_refl) as [_ Hcards].
  destruct (Hcards "Q1" (VStr "yes") (or_introl eq_refl)) as (b & c & e & Hin).
  vm_compute in Hin.
  repeat (destruct Hin as [Hin | Hin]; [discriminate Hin|]). exact Hin.
Qed.

Lemma overall_comments_iff_nonempty_run :
  sample_render_result evaluator_digital_disruption scenario_text
  = ([st_subheader "Result";
      st_section "Part 1 — Business Model";
      st_item "✅" "Q1" "#0f766e" "ok";
      st_error "Final Grade: FAIL"],
     inr tt).
Proof.
  exact (proj2 (proj2 (proj2 (overall_comments_iff_nonempty sample_float_repr
                                plain_str_repr sample_loads)))
           scenario_text eq_refl).
Defined.

(** C8 fails as worded: the comments of this payload are present and
    non-empty, and its report shows neither the heading nor the comments. *)
Lemma present_comments_not_rendered :
  ~ overall_comments_rendered bare_criterion_payload
      (trace (sample_render_result ecosystem_evaluator bare_criterion_text)).
Proof.
  intros (Hshown & _).
  destruct (Hshown "fine" eq_refl) as (Hin & _); [discriminate|].
  vm_compute in Hin.
  repeat (destruct Hin as [Hin | Hin]; [discriminate Hin|]). exact Hin.
Qed.

Lemma non_mapping_criterion_falls_back_run :
  exists t,
    sample_render_result ecosystem_evaluator bare_criterion_text
    = (st_subheader "Result"
         :: (t ++ [st_warning
                     "Could not parse the evaluation into sections. Showing compact text.";
                   st_write (VStr bare_criterion_text)])%list,
       inr tt)
    /\ Forall part_event t.
Proof.
  exact (proj2 (non_mapping_criterion_falls_back sample_float_repr plain_str_repr
                  sample_loads)
           ecosystem_evaluator bare_criterion_text bare_criterion_payload
           ("part1_complementors_intermediaries",
            "Part 1 — Core Complementors and Intermediaries")
           [("Q1", VStr "yes")] "Q1" (VStr "yes")
           eq_refl (or_introl eq_refl) eq_refl (or_introl eq_refl) eq_refl).
Defined.

Lemma extract_text_chain_run :
  extract_text stub_dumps reasoning_response = scenario_text.
Proof.
  destruct (extract_text_chain sample_prompt stub_remote stub_dumps reasoning_response)
    as (_ & Hfield & _).
  apply Hfield; [reflexivity | reflexivity | discriminate].
Defined.

Lemma three_spaces_whitespace_only : whitespace_only "   ".
Proof.
  exists [32; 32; 32]%N. split; [|reflexivity].
  repeat constructor; simpl; tauto.
Defined.

Lemma empty_submission_warned_run :
  sample_run_handler evaluator_transformation_plan no_entries "sk-test" "gpt-5-nano" "   "
  = ([st_warning "Please paste your submission text before evaluating."], inr tt).
Proof.
  exact (proj1 (proj1 (empty_submission_warned sample_float_repr plain_str_repr
                         sample_loads sample_prompt stub_remote stub_dumps
                         sample_exn_str evaluator_transformation_plan "   "
                         three_spaces_whitespace_only)
                  no_entries "sk-test" "gpt-5-nano")).
Defined.

Lemma missing_credential_no_call_run :
  transport_calls (trace (sample_script evaluator_digital_disruption empty_secret_session))
  = []
  /\ sample_script evaluator_digital_disruption empty_secret_session
     = ([st_warning "Provide an OpenAI API key in the sidebar or set OPENAI_API_KEY."],
        inr tt).
Proof.
  destruct (missing_credential_no_call sample_float_repr plain_str_repr sample_loads
              sample_prompt stub_remote stub_dumps sample_exn_str
              evaluator_digital_disruption empty_secret_session
              eq_refl eq_refl eq_refl eq_refl eq_refl)
    as (Hcalls & Hdefined & _).
  split; [exact Hcalls | apply Hdefined; discriminate].
Defined.

(** C6 fails as worded: with no secret defined the digital-disruption
    script raises at the lookup and shows no warning. *)
Lemma missing_secret_not_warned :
  ~ missing_credential_warned sample_float_repr plain_str_repr sample_loads
      sample_prompt stub_remote stub_dumps sample_exn_str
      evaluator_digital_disruption bare_session.
Proof.
  intros H.
  destruct (H eq_refl eq_refl eq_refl eq_refl eq_refl) as (body & Hrun & _).
  discriminate Hrun.
Qed.

Example missing_secret_raises :
  sample_script evaluator_digital_disruption bare_session
  = ([], inl (KeyError "OPENAI_API_KEY")).
Proof. reflexivity. Qed.

(** The same run without a secrets file: the two scripts that read a
    secret end at their credential lines, the transformation-plan script at
    its [get]. *)
Definition no_file_session : session :=
  {| secrets_file := None;
     environ0 := setitem no_entries "OPENAI_API_KEY" "sk-env";
     key_input := "sk-typed";
     model_input := "gpt-5-nano";
     submission := "Our platform connects growers and buyers.";
     button := true |}.

Example no_secrets_file_raises :
  sample_script evaluator_digital_disruption no_file_session
  = ([], inl StreamlitSecretNotFoundError)
  /\ sample_script evaluator_transformation_plan no_file_session
     = ([], inl StreamlitSecretNotFoundError).
Proof. split; reflexivity. Qed.

(** A configured run of the digital-disruption script, end to end: one
    request with the secret as key, then the report of the scenario. *)
Definition configured_session : session :=
  {| secrets_file := Some (setitem no_entries "OPENAI_API_KEY" "sk-test");
     environ0 := no_entries;
     key_input := "";
     model_input := "gpt-5-nano";
     submission := "  Our platform connects growers and buyers. ";
     button := true |}.

Example configured_run :
  sample_script evaluator_digital_disruption configured_session
  = ([st_spinner "Evaluating...";
      responses_create
        {| req_api_key := "sk-test";
           req_model := "gpt-5-nano";
           req_input :=
             [ {| role := "developer"; input_text := "# Role and Objective" |};
               {| role := "user";
                  input_text := "  Our platform connects growers and buyers. " |} ] |};
      st_subheader "Result";
      st_section "Part 1 — Business Model";
      st_item "✅" "Q1" "#0f766e" "ok";
      st_error "Final Grade: FAIL"],
     inr tt).
Proof. reflexivity. Qed.

(** The scan alone finds the text when the message comes first. *)
Example message_first :
  extract_text stub_dumps
    {| output :=
         has [ {| out_content :=
                    has [ {| seg_type := Some (VStr "refusal"); seg_text := None |};
                          {| seg_type := Some (VStr "output_text");
                             seg_text := Some (VStr "first") |} ] |};
               {| out_content :=
                    has [ {| seg_type := Some (VStr "output_text");
                             seg_text := Some (VStr "second") |} ] |} ];
       output_text := None;
       content := None |}
  = "first".
Proof. reflexivity. Qed.

(** Nothing textual anywhere: the serialized response comes back. *)
Example nothing_textual :
  extract_text stub_dumps
    {| output := absent; output_text := None; content := Some (VList []) |}
  = "{}".
Proof. reflexivity. Qed.


(** ** More runs on examples *)

Definition failing_remote (req : request) : exn + response :=
  inl (OpenAIError "Connection error.").

(** Everything configured at once: a secret, an environment variable and a
    key typed in. *)
Definition crowded_session : session :=
  {| secrets_file := Some (setitem no_entries "OPENAI_API_KEY" "sk-secret");
     environ0 := setitem no_entries "OPENAI_API_KEY" "sk-env";
     key_input := "sk-typed";
     model_input := "gpt-5-nano";
     submission := "Our platform connects growers and buyers.";
     button := true |}.

(** An empty secret beside a key in the environment. *)
Definition shadowed_session : session :=
  {| secrets_file := Some (setitem no_entries "OPENAI_API_KEY" "");
     environ0 := setitem no_entries "OPENAI_API_KEY" "sk-env";
     key_input := "";
     model_input := "gpt-5-nano";
     submission := "Our platform connects growers and buyers.";
     button := true |}.

Lemma service_failure_reported_run :
  exists key,
    OpenAI "sk-test" no_entries = inr key
    /\ run_handler sample_float_repr plain_str_repr sample_loads sample_prompt
         failing_remote stub_dumps sample_exn_str
         platform_evaluator no_entries "sk-test" "gpt-5-nano" "A proposal."
       = ([st_spinner "Evaluating...";
           responses_create
             (build_request sample_prompt platform_evaluator key "gpt-5-nano"
                "A proposal.");
           st_error "Evaluation failed: Connection error.";
           st_exception (OpenAIError "Connection error.")],
          inr tt).
Proof.
  exact (service_failure_reported sample_float_repr plain_str_repr sample_loads
           sample_prompt failing_remote stub_dumps sample_exn_str
           platform_evaluator no_entries "sk-test" "gpt-5-nano" "A proposal."
           (OpenAIError "Connection error.") eq_refl eq_refl (fun _ _ => eq_refl)).
Defined.

Lemma credential_precedence_run :
  transport_calls (trace (sample_script evaluator_digital_disruption crowded_session))
  = [build_request sample_prompt evaluator_digital_disruption "sk-secret" "gpt-5-nano"
       "Our platform connects growers and buyers."]
  /\ transport_calls (trace (sample_script evaluator_transformation_plan crowded_session))
     = [build_request sample_prompt evaluator_transformation_plan "sk-secret"
          "gpt-5-nano" "Our platform connects growers and buyers."].
Proof.
  exact (proj1 (proj2 (credential_precedence sample_float_repr plain_str_repr
                         sample_loads sample_prompt stub_remote stub_dumps
                         sample_exn_str crowded_session "sk-secret"
                         eq_refl eq_refl eq_refl))
           eq_refl).
Defined.

Lemma empty_secret_hides_environment_run :
  sample_script evaluator_digital_disruption shadowed_session
  = ([st_warning "Provide an OpenAI API key in the sidebar or set OPENAI_API_KEY."],
     inr tt)
  /\ sample_script evaluator_transformation_plan shadowed_session
     = ([st_warning
           "Provide an OpenAI API key in the sidebar, set OPENAI_API_KEY secret, or set OPENAI_API_KEY environment variable."],
        inr tt).
Proof.
  destruct (empty_secret_hides_environment sample_float_repr plain_str_repr sample_loads
              sample_prompt stub_remote stub_dumps sample_exn_str
              shadowed_session eq_refl eq_refl eq_refl) as [Hdd Htp].
  split; [exact Hdd | exact (Htp eq_refl)].
Defined.

(** Texts that decode to something else than an object, an object with a
    field no script reads, and the same object with its fields in another
    order. *)
Definition list_text : string := "[1, 2]".

Definition extended_text : string :=
  "{" ++ quoted "model" ++ ":" ++ quoted "gpt-5-nano" ++ ","
      ++ quoted "final_grade" ++ ":" ++ quoted "pass" ++ ","
      ++ quoted "part1" ++ ":{" ++ quoted "Q1" ++ ":{"
      ++ quoted "value" ++ ":" ++ quoted "yes" ++ "}}}".

Definition trimmed_text : string :=
  "{" ++ quoted "final_grade" ++ ":" ++ quoted "pass" ++ ","
      ++ quoted "part1" ++ ":{" ++ quoted "Q1" ++ ":{"
      ++ quoted "value" ++ ":" ++ quoted "yes" ++ "}}}".

Definition reordered_text : string :=
  "{" ++ quoted "part1" ++ ":{" ++ quoted "Q1" ++ ":{"
      ++ quoted "value" ++ ":" ++ quoted "yes" ++ "}}, "
      ++ quoted "final_grade" ++ ":" ++ quoted "pass" ++ "}".

Definition first_card : pyval := VDict [("Q1", VDict [("value", VStr "yes")])].

Definition more_loads : string -> option pyval :=
  decode_table
    [(list_text, VList [VInt 1; VInt 2]);
     (extended_text,
      VDict [("model", VStr "gpt-5-nano"); ("final_grade", VStr "pass");
             ("part1", first_card)]);
     (trimmed_text, VDict [("final_grade", VStr "pass"); ("part1", first_card)]);
     (reordered_text, VDict [("part1", first_card); ("final_grade", VStr "pass")])].

Lemma non_object_payload_falls_back_run :
  render_result sample_float_repr plain_str_repr more_loads ecosystem_evaluator list_text
  = ([st_subheader "Result";
      st_warning "Could not parse the evaluation into sections. Showing compact text.";
      st_write (VStr list_text)],
     inr tt).
Proof.
  exact (non_object_payload_falls_back sample_float_repr plain_str_repr more_loads
           ecosystem_evaluator list_text (VList [VInt 1; VInt 2]) eq_refl eq_refl).
Defined.

Lemma other_fields_ignored_run :
  same_report sample_float_repr plain_str_repr more_loads
    evaluator_digital_disruption extended_text trimmed_text.
Proof.
  exact (other_fields_ignored sample_float_repr plain_str_repr more_loads
           evaluator_digital_disruption extended_text trimmed_text
           [("model", VStr "gpt-5-nano"); ("final_grade", VStr "pass");
            ("part1", first_card)]
           eq_refl eq_refl).
Defined.

Lemma trimmed_keys_distinct :
  NoDup (map fst [("final_grade", VStr "pass"); ("part1", first_card)]).
Proof.
  simpl. constructor.
  - intros [H|[]]. discriminate H.
  - constructor; [intros [] | constructor].
Defined.

Lemma field_order_irrelevant_run :
  same_report sample_float_repr plain_str_repr more_loads
    evaluator_digital_disruption trimmed_text reordered_text.
Proof.
  exact (field_order_irrelevant sample_float_repr plain_str_repr more_loads
           evaluator_digital_disruption trimmed_text reordered_text
           [("final_grade", VStr "pass"); ("part1", first_card)]
           [("part1", first_card); ("final_grade", VStr "pass")]
           eq_refl eq_refl trimmed_keys_distinct
           (perm_swap ("part1", first_card) ("final_grade", VStr "pass") [])).
Defined.

(** A message whose first text is empty, then a message with a text. *)
Definition empty_part : segment :=
  {| seg_type := Some (VStr "output_text"); seg_text := Some (VStr "") |}.
Definition unread_part : segment :=
  {| seg_type := Some (VStr "output_text"); seg_text := Some (VStr "never read") |}.
Definition refusal_part : segment :=
  {| seg_type := Some (VStr "refusal"); seg_text := None |}.
Definition answer_part : segment :=
  {| seg_type := Some (VStr "output_text"); seg_text := Some (VStr "the answer") |}.

Definition blank_message : output_item :=
  {| out_content := has [empty_part; unread_part] |}.
Definition answer_message : output_item :=
  {| out_content := has [refusal_part; answer_part] |}.

Definition blank_then_text : response :=
  {| output := has [blank_message; answer_message];
     output_text := None;
     content := None |}.

Lemma blank_message_passed_over : Forall passed_over [blank_message].
Proof.
  constructor; [|constructor]. right.
  exists [], empty_part, [unread_part], (VStr "").
  repeat split. constructor.
Defined.

Lemma refusal_is_other : Forall other_segment [refusal_part].
Proof.
  constructor; [|constructor]. exists (VStr "refusal"). split; reflexivity.
Defined.

Lemma scan_takes_first_true_text_run :
  extract_text stub_dumps blank_then_text = "the answer".
Proof.
  refine (scan_takes_first_true_text stub_dumps blank_then_text
            [blank_message] answer_message [] [refusal_part] answer_part []
            "the answer"
            eq_refl blank_message_passed_over eq_refl refusal_is_other
            eq_refl eq_refl _).
  discriminate.
Defined.

Lemma scan_error_falls_back_to_fields_run :
  extract_text stub_dumps reasoning_response = scenario_text.
Proof.
  refine (proj2 (scan_error_falls_back_to_fields stub_dumps reasoning_response
                   [] {| out_content := is_None |}
                   [ {| out_content :=
                          has [ {| seg_type := Some (VStr "output_text");
                                   seg_text := Some (VStr scenario_text) |} ] |} ]
                   eq_refl (Forall_nil _) (or_introl eq_refl))
            scenario_text eq_refl _).
  discriminate.
Defined.

(** A number where the text should be. *)
Definition number_as_text : response :=
  {| output := absent; output_text := Some (VInt 5); content := Some (VStr "a text") |}.

Lemma true_non_string_ends_chain_run :
  extract_text stub_dumps number_as_text = "{}".
Proof.
  exact (proj2 (true_non_string_ends_chain stub_dumps number_as_text (VInt 5)
                  eq_refl eq_refl)
           eq_refl eq_refl).
Defined.

Lemma script_renders_answer_run :
  exists key,
    OpenAI "sk-test" (setitem no_entries "OPENAI_API_KEY" "sk-test") = inr key
    /\ sample_script evaluator_digital_disruption configured_session
       = (st_spinner "Evaluating..."
            :: responses_create
                 (build_request sample_prompt evaluator_digital_disruption key
                    "gpt-5-nano" "  Our platform connects growers and buyers. ")
            :: trace (sample_render_result evaluator_digital_disruption
                        (extract_text stub_dumps reasoning_response)),
          inr tt).
Proof.
  exact (script_renders_answer sample_float_repr plain_str_repr sample_loads
           sample_prompt stub_remote stub_dumps sample_exn_str
           evaluator_digital_disruption configured_session "sk-test"
           (setitem no_entries "OPENAI_API_KEY" "sk-test") reasoning_response
           eq_refl eq_refl eq_refl eq_refl (fun _ _ => eq_refl)).
Defined.
